(** * noise_removal.cpp: decode, denoise with Speex, re-encode to MP3

    A shallow embedding of [main] of [src/noise_removal.cpp].  The program is
    one function that drives three external libraries (libavformat,
    libavcodec, SpeexDSP).  The libraries are an interface here (the class
    [MediaLibrary] and the fields of [World]); everything [main] itself does,
    the order of its calls, its tests on return codes, its early returns and
    the values it stores, is transcribed statement by statement. *)

From Stdlib Require Import ZArith List String Bool Lia QArith Qround.
Import ListNotations.
Local Open Scope Z_scope.

(** ** Samples in memory *)

(** A [uint8_t] buffer is a list of integers, each in [0, 255]. *)

(** [spx_int16_t] is a signed 16-bit integer. *)
Definition INT16_MAX : Z := 32767.
Definition INT16_MIN : Z := -32768.
Definition is_int16 (v : Z) : Prop := INT16_MIN <= v <= INT16_MAX.

(** Byte order of the host: the cast [(spx_int16_t* )frame->data[0]] reads the
    plane in the host's order. *)
Inductive ByteOrder : Type := LittleEndian | BigEndian.

(** A 16-bit word read as a signed value (two's complement). *)
Definition to_int16 (u : Z) : Z := if Z.testbit u 15 then u - 65536 else u.

(** The 16-bit value two consecutive bytes of a plane denote. *)
Definition int16_of_bytes (bo : ByteOrder) (b0 b1 : Z) : Z :=
  to_int16 match bo with
           | LittleEndian => Z.lor (Z.shiftl b1 8) b0
           | BigEndian => Z.lor (Z.shiftl b0 8) b1
           end.

(** The two bytes a 16-bit value is stored as. *)
Definition bytes_of_int16 (bo : ByteOrder) (v : Z) : Z * Z :=
  let lo := Z.land v 255 in
  let hi := Z.land (Z.shiftr v 8) 255 in
  match bo with
  | LittleEndian => (lo, hi)
  | BigEndian => (hi, lo)
  end.

(** What a [spx_int16_t*] pointing at the start of a plane sees: one value
    per pair of bytes (a last odd byte belongs to no value). *)
Fixpoint load_int16s (bo : ByteOrder) (plane : list Z) : list Z :=
  match plane with
  | b0 :: b1 :: rest => int16_of_bytes bo b0 b1 :: load_int16s bo rest
  | _ => []
  end.

(** Writing values back through the same pointer: the plane is overwritten in
    place, pair by pair, and keeps its length; bytes behind the last written
    value stay as they were.  This is the write as far as it falls within the
    plane.  The pointer carries no length: values written beyond the end of
    the plane land in memory the program says nothing about, and the model
    has no place for them; [denoise_in_bounds] says when there are none. *)
Fixpoint store_int16s (bo : ByteOrder) (vs : list Z) (plane : list Z) : list Z :=
  match vs, plane with
  | v :: vs', _ :: _ :: rest =>
      let '(c0, c1) := bytes_of_int16 bo v in
      c0 :: c1 :: store_int16s bo vs' rest
  | _, _ => plane
  end.

(** A plane of 16-bit samples: the bytes the values [vs] are stored as. *)
Definition int16_bytes (bo : ByteOrder) (vs : list Z) : list Z :=
  flat_map (fun v => let '(c0, c1) := bytes_of_int16 bo v in [c0; c1]) vs.

(** IEEE 754 binary32, the layout of [AV_SAMPLE_FMT_FLT] samples: sign bit,
    biased exponent (8 bits), fraction (23 bits). *)
Record float32 : Type := mkFloat32 {
  f32_sign : bool;
  f32_exponent : Z;
  f32_fraction : Z
}.

Definition f32_bits (f : float32) : Z :=
  Z.lor (Z.shiftl (if f32_sign f then 1 else 0) 31)
        (Z.lor (Z.shiftl (f32_exponent f) 23) (f32_fraction f)).

(** The rational a finite binary32 number denotes.  A normal number
    (biased exponent 1 to 254) is (-1)^s * (2^23 + fraction) * 2^(exponent - 150);
    with biased exponent 0 (zero and the subnormal numbers) there is no
    implicit leading bit and the scale is 2^-149.  Exponent 255 (the
    infinities and NaN) denotes no rational; the value given for it is not
    used. *)
Definition f32_value (f : float32) : Q :=
  let subnormal := f32_exponent f =? 0 in
  let m := if subnormal then f32_fraction f else 2 ^ 23 + f32_fraction f in
  let m := if f32_sign f then - m else m in
  let e := if subnormal then -149 else f32_exponent f - 150 in
  if 0 <=? e then inject_Z (m * 2 ^ e)
  else Qmake m (Z.to_pos (2 ^ (- e))).

(** The low and the high half of the 32-bit pattern, as 16-bit values. *)
Definition f32_low16 (f : float32) : Z := to_int16 (Z.land (f32_bits f) 65535).
Definition f32_high16 (f : float32) : Z :=
  to_int16 (Z.land (Z.shiftr (f32_bits f) 16) 65535).

(** The four bytes a binary32 number occupies in memory. *)
Definition f32_bytes (bo : ByteOrder) (f : float32) : list Z :=
  let w := f32_bits f in
  let le := [Z.land w 255; Z.land (Z.shiftr w 8) 255;
             Z.land (Z.shiftr w 16) 255; Z.land (Z.shiftr w 24) 255] in
  match bo with
  | LittleEndian => le
  | BigEndian => rev le
  end.

(** ** libav data *)

(** [enum AVMediaType]. *)
Inductive AVMediaType : Type :=
| AVMEDIA_TYPE_UNKNOWN
| AVMEDIA_TYPE_VIDEO
| AVMEDIA_TYPE_AUDIO
| AVMEDIA_TYPE_DATA
| AVMEDIA_TYPE_SUBTITLE
| AVMEDIA_TYPE_ATTACHMENT.

Definition is_audio (t : AVMediaType) : bool :=
  match t with AVMEDIA_TYPE_AUDIO => true | _ => false end.

(** [enum AVSampleFormat]. *)
Inductive AVSampleFormat : Type :=
| AV_SAMPLE_FMT_NONE
| AV_SAMPLE_FMT_U8 | AV_SAMPLE_FMT_S16 | AV_SAMPLE_FMT_S32
| AV_SAMPLE_FMT_FLT | AV_SAMPLE_FMT_DBL
| AV_SAMPLE_FMT_U8P | AV_SAMPLE_FMT_S16P | AV_SAMPLE_FMT_S32P
| AV_SAMPLE_FMT_FLTP | AV_SAMPLE_FMT_DBLP
| AV_SAMPLE_FMT_S64 | AV_SAMPLE_FMT_S64P.

(** Codec identifiers are opaque numbers; the program names one of them. *)
Definition AV_CODEC_ID_MP3 : Z := 86017.

(** Channel layouts are bit masks of speaker positions. *)
Definition AV_CH_FRONT_LEFT : Z := 1.
Definition AV_CH_FRONT_RIGHT : Z := 2.
Definition AV_CH_LAYOUT_STEREO : Z := Z.lor AV_CH_FRONT_LEFT AV_CH_FRONT_RIGHT.

(** [av_get_channel_layout_nb_channels]: the number of bits set in the mask
    (a 64-bit mask). *)
Definition av_get_channel_layout_nb_channels (layout : Z) : Z :=
  Z.of_nat (List.length (List.filter (Z.testbit layout) (map Z.of_nat (seq 0 64)))).

(** Flags tested and set by [main]. *)
Definition AVFMT_NOFILE : Z := 1.
Definition AVFMT_GLOBALHEADER : Z := 64.
Definition AV_CODEC_FLAG_GLOBAL_HEADER : Z := Z.shiftl 1 22.

(** The return code of a receive call that has nothing to hand over,
    [AVERROR(EAGAIN)]. *)
Definition AVERROR_EAGAIN : Z := -11.

(** [AVCodecParameters] of a stream: what the demuxer found out about it. *)
Record AVCodecParameters : Type := mkPar {
  codec_type : AVMediaType;
  par_codec_id : Z;
  par_format : AVSampleFormat;
  par_bit_rate : Z;
  par_channel_layout : Z;
  par_channels : Z;
  par_sample_rate : Z;
  par_frame_size : Z
}.

(** [AVPacket]: compressed data of one stream. *)
Record AVPacket : Type := mkPacket {
  stream_index : Z;
  pkt_pts : Z;
  pkt_data : list Z
}.

(** [AVFrame]: decoded audio.  [data] are the planes ([data[0]],
    [data[1]], ...): one plane for a packed format, one per channel for a
    planar one. *)
Record AVFrame : Type := mkFrame {
  data : list (list Z);
  nb_samples : Z;
  format : AVSampleFormat;
  channels : Z;
  pts : Z
}.

(** [frame->data[0]]. *)
Definition data0 (f : AVFrame) : list Z := hd [] (data f).

(** What the pointer [(spx_int16_t* )frame->data[0]] points at: the 16-bit
    values the denoise stage is given for a frame. *)
Definition denoiser_input (bo : ByteOrder) (f : AVFrame) : list Z :=
  load_int16s bo (data0 f).

(** The frame after its first plane has been overwritten in place: every
    other field is the same object. *)
Definition with_data0 (f : AVFrame) (plane : list Z) : AVFrame :=
  mkFrame (match data f with
           | [] => []
           | _ :: others => plane :: others
           end)
          (nb_samples f) (format f) (channels f) (pts f).

(** ** The libraries as an interface *)

(** The answer of [avcodec_send_packet] / [avcodec_send_frame]: the codec
    takes the input and makes zero or more outputs available to the matching
    receive call, or it refuses the input with a negative [AVERROR] code. *)
Inductive SendResult (St Out : Type) : Type :=
| Accepted (st : St) (out : list Out)
| Refused (averror : positive) (st : St).
Arguments Accepted {St Out} st out.
Arguments Refused {St Out} averror st.

(** What the program cannot see of libavcodec and SpeexDSP: the private state
    of the decoder, the encoder and the preprocessor, and how each reacts to
    one input.  [decoder_delayed] are the frames a decoder in that state still
    holds back and would release only when it is drained (a send call with a
    null packet). *)
Class MediaLibrary : Type := {
  DecoderState : Type;
  EncoderState : Type;
  SpeexPreprocessState : Type;
  decode : DecoderState -> AVPacket -> SendResult DecoderState AVFrame;
  decoder_delayed : DecoderState -> list AVFrame;
  encode : EncoderState -> AVFrame -> SendResult EncoderState AVPacket;
  speex_preprocess_state_init : Z -> Z -> SpeexPreprocessState;
  speex_preprocess_ctl : SpeexPreprocessState -> Z -> Z -> SpeexPreprocessState;
  speex_preprocess_run : SpeexPreprocessState -> list Z -> SpeexPreprocessState * list Z
}.

(** Requests of [speex_preprocess_ctl] used by the program. *)
Definition SPEEX_PREPROCESS_SET_DENOISE : Z := 0.
Definition SPEEX_PREPROCESS_SET_NOISE_SUPPRESS : Z := 18.

(** [AVCodecContext]: the configuration fields the program reads or writes,
    the codec's private state, and the outputs that are ready for the receive
    call. *)
Record AVCodecContext (St Out : Type) : Type := mkCtx {
  priv_data : St;
  ready : list Out;
  codec_id : Z;
  sample_rate : Z;
  frame_size : Z;
  channel_layout : Z;
  ctx_channels : Z;
  sample_fmt : AVSampleFormat;
  bit_rate : Z;
  flags : Z
}.
Arguments mkCtx {St Out}.
Arguments priv_data {St Out}.
Arguments ready {St Out}.
Arguments codec_id {St Out}.
Arguments sample_rate {St Out}.
Arguments frame_size {St Out}.
Arguments channel_layout {St Out}.
Arguments ctx_channels {St Out}.
Arguments sample_fmt {St Out}.
Arguments bit_rate {St Out}.
Arguments flags {St Out}.

Definition set_codec {St Out} (c : AVCodecContext St Out) (st : St) (q : list Out)
  : AVCodecContext St Out :=
  mkCtx st q (codec_id c) (sample_rate c) (frame_size c) (channel_layout c)
        (ctx_channels c) (sample_fmt c) (bit_rate c) (flags c).

Definition set_flags {St Out} (c : AVCodecContext St Out) (fl : Z)
  : AVCodecContext St Out :=
  mkCtx (priv_data c) (ready c) (codec_id c) (sample_rate c) (frame_size c)
        (channel_layout c) (ctx_channels c) (sample_fmt c) (bit_rate c) fl.

(** The return code of a send call. *)
Definition send_ret {St Out} (r : SendResult St Out) : Z :=
  match r with
  | Accepted _ _ => 0
  | Refused e _ => Z.neg e
  end.

(** A send call on a context: the codec's answer is stored in the context. *)
Definition send {St In Out} (step : St -> In -> SendResult St Out)
    (c : AVCodecContext St Out) (x : In) : Z * AVCodecContext St Out :=
  let r := step (priv_data c) x in
  (send_ret r,
   match r with
   | Accepted st out => set_codec c st (ready c ++ out)
   | Refused _ st => set_codec c st (ready c)
   end).

(** A receive call on a context: the oldest ready output, or
    [AVERROR(EAGAIN)]. *)
Definition receive {St Out} (c : AVCodecContext St Out)
  : Z * option Out * AVCodecContext St Out :=
  match ready c with
  | [] => (AVERROR_EAGAIN, None, c)
  | o :: q => (0, Some o, set_codec c (priv_data c) q)
  end.

(** ** What the program does to the outside *)

(** The calls whose effect is visible outside the program, with the
    arguments that matter and the return value.  A null packet or frame
    argument of a send call (the request to drain the codec) is [None].
    [Call_speex_preprocess_run f] is the call on the first plane of [f]. *)
Inductive Call : Type :=
| Call_avformat_open_input (filename : string) (ret : Z)
| Call_avformat_find_stream_info (ret : Z)
| Call_avcodec_find_decoder (id : Z) (found : bool)
| Call_avcodec_open2_decoder (ret : Z)
| Call_speex_preprocess_state_init (frame_size sample_rate : Z)
| Call_speex_preprocess_ctl (request value : Z)
| Call_avformat_alloc_output_context2 (format_name filename : string) (ok : bool)
| Call_avcodec_find_encoder (id : Z) (found : bool)
| Call_avformat_new_stream (ok : bool)
| Call_avcodec_open2_encoder (id sample_rate channel_layout channels : Z)
    (fmt : AVSampleFormat) (bit_rate : Z) (ret : Z)
| Call_avcodec_parameters_from_context
| Call_avio_open (filename : string) (ret : Z)
| Call_avformat_write_header (ret : Z)
| Call_av_read_frame (got : option AVPacket)
| Call_avcodec_send_packet (pkt : option AVPacket) (ret : Z)
| Call_avcodec_receive_frame (got : option AVFrame)
| Call_speex_preprocess_run (frame : AVFrame)
| Call_avcodec_send_frame (frame : option AVFrame) (ret : Z)
| Call_avcodec_receive_packet (got : option AVPacket)
| Call_av_interleaved_write_frame (pkt : AVPacket)
| Call_av_packet_unref
| Call_av_write_trailer
| Call_av_frame_free
| Call_av_packet_free
| Call_avcodec_free_context
| Call_avformat_close_input
| Call_speex_preprocess_state_destroy
| Call_avcodec_close
| Call_avformat_free_context.

(** The process as seen from outside: the library calls made so far (oldest
    first) and what was written to the two standard streams. *)
Record Process : Type := mkProcess {
  calls : list Call;
  cerr : list string;
  cout : list string
}.

Definition start : Process := mkProcess [] [] [].

(** A statement of [main] either falls through to the next one or leaves
    [main] with a [return]. *)
Inductive Flow (A : Type) : Type :=
| Continue (a : A)
| Return (code : Z).
Arguments Continue {A} a.
Arguments Return {A} code.

Definition Run (A : Type) : Type := Process -> Flow A * Process.

Definition ret {A} (a : A) : Run A := fun p => (Continue a, p).

Definition bind {A B} (m : Run A) (k : A -> Run B) : Run B :=
  fun p => match m p with
           | (Continue a, p') => k a p'
           | (Return code, p') => (Return code, p')
           end.

Definition return_ {A} (code : Z) : Run A := fun p => (Return code, p).

Definition call (c : Call) : Run unit :=
  fun p => (Continue tt, mkProcess (calls p ++ [c]) (cerr p) (cout p)).

Definition std_cerr (msg : string) : Run unit :=
  fun p => (Continue tt, mkProcess (calls p) (cerr p ++ [msg]) (cout p)).

Definition std_cout (msg : string) : Run unit :=
  fun p => (Continue tt, mkProcess (calls p) (cerr p) (cout p ++ [msg])).

Declare Scope run_scope.
Delimit Scope run_scope with run.
Notation "x <- m ;; k" := (bind m (fun x => k))
  (at level 61, m at next level, right associativity) : run_scope.
Notation "m ;; k" := (bind m (fun _ => k))
  (at level 61, right associativity) : run_scope.
Local Open Scope run_scope.

(** The end-of-line character the messages end with. *)
Definition nl : string := String (Ascii.ascii_of_nat 10) EmptyString.

(** ** The program *)

Section Program.

Context {lib : MediaLibrary}.

(** Everything outside the program that one run depends on: the command
    line, the host, the input file as the demuxer presents it, and the answer
    of each library call that sets the pipeline up. *)
Record World : Type := mkWorld {
  argv : list string;
  host_byte_order : ByteOrder;
  avformat_open_input_ret : Z;
  avformat_find_stream_info_ret : Z;
  (** [format_context->streams[i]->codecpar], for [i < nb_streams] *)
  streams : list AVCodecParameters;
  (** the packets [av_read_frame] returns, in order, before it reports a
      negative code *)
  input_packets : list AVPacket;
  (** [avcodec_find_decoder] finds a decoder *)
  decoder_found : bool;
  (** [avcodec_open2] on the decoder: return code, and the decoder's state
      once open *)
  decoder_open_ret : Z;
  decoder_opened : DecoderState;
  (** [avformat_alloc_output_context2] yields a context *)
  output_context_allocated : bool;
  (** [avcodec_find_encoder (AV_CODEC_ID_MP3)] finds an encoder, and the
      formats it lists in [sample_fmts] *)
  encoder_found : bool;
  encoder_sample_fmts : list AVSampleFormat;
  (** [avformat_new_stream] yields a stream *)
  stream_created : bool;
  (** [avcodec_open2] on the encoder: return code, the encoder's state once
      open, and the frame length it then requires ([frame_size], which it
      writes into the context) *)
  encoder_open_ret : Z;
  encoder_opened : EncoderState;
  encoder_frame_size : Z;
  (** [output_format_context->oformat->flags] *)
  oformat_flags : Z;
  avio_open_ret : Z;
  avformat_write_header_ret : Z
}.

Definition argc (w : World) : Z := Z.of_nat (List.length (argv w)).

(** [argv[i]], for [i < argc].  Beyond that there is no string to read
    ([argv[argc]] is a null pointer); the properties that read an argument
    assume it is there. *)
Definition arg (w : World) (i : nat) : string := nth i (argv w) EmptyString.

(** The locals of [main] that live across the processing loop. *)
Record Pipeline : Type := mkPipeline {
  audio_stream_index : Z;
  codec_context : AVCodecContext DecoderState AVFrame;
  preprocess_state : SpeexPreprocessState;
  out_codec_context : AVCodecContext EncoderState AVPacket
}.

(** Lines 43-49: the index of the first stream whose type is audio, or -1. *)
Fixpoint find_audio_stream (i : Z) (ss : list AVCodecParameters) : Z :=
  match ss with
  | [] => -1
  | s :: rest =>
      if is_audio (codec_type s) then i else find_audio_stream (i + 1) rest
  end.

Definition default_parameters : AVCodecParameters :=
  mkPar AVMEDIA_TYPE_UNKNOWN 0 AV_SAMPLE_FMT_NONE 0 0 0 0 0.

(** [avcodec_alloc_context3] followed by [avcodec_parameters_to_context]:
    a fresh context that carries the stream's parameters. *)
Definition avcodec_parameters_to_context (st : DecoderState)
    (par : AVCodecParameters) : AVCodecContext DecoderState AVFrame :=
  mkCtx st [] (par_codec_id par) (par_sample_rate par) (par_frame_size par)
        (par_channel_layout par) (par_channels par) (par_format par)
        (par_bit_rate par) 0.

Definition avcodec_send_packet := send (Out := AVFrame) decode.
Definition avcodec_receive_frame := receive (St := DecoderState) (Out := AVFrame).
Definition avcodec_send_frame := send (Out := AVPacket) encode.
Definition avcodec_receive_packet := receive (St := EncoderState) (Out := AVPacket).

(** Lines 20-145: everything before the loop.  Each failed step prints its
    message and returns -1.  The allocations (lines 66, 74, 75, 108, 145)
    leave no call behind; the store [codec_tag = 0] into the parameters of
    the output stream (line 122) is part of what
    [Call_avcodec_parameters_from_context] stands for. *)
Definition opening (w : World) : Run Pipeline :=
  if argc w <? 3 then
    std_cerr ("Usage: " ++ arg w 0 ++ " <input file> <output file>" ++ nl) ;;
    return_ (-1)
  else
  let input_filename := arg w 1 in
  let output_filename := arg w 2 in
  call (Call_avformat_open_input input_filename (avformat_open_input_ret w)) ;;
  if negb (avformat_open_input_ret w =? 0) then
    std_cerr ("Could not open input file " ++ input_filename ++ nl) ;;
    return_ (-1)
  else
  call (Call_avformat_find_stream_info (avformat_find_stream_info_ret w)) ;;
  if avformat_find_stream_info_ret w <? 0 then
    std_cerr ("Failed to retrieve input stream information" ++ nl) ;;
    return_ (-1)
  else
  let audio_stream_index := find_audio_stream 0 (streams w) in
  if audio_stream_index =? -1 then
    std_cerr ("Could not find audio stream" ++ nl) ;;
    return_ (-1)
  else
  let codec_params :=
    nth (Z.to_nat audio_stream_index) (streams w) default_parameters in
  call (Call_avcodec_find_decoder (par_codec_id codec_params) (decoder_found w)) ;;
  if negb (decoder_found w) then
    std_cerr ("Codec not found" ++ nl) ;;
    return_ (-1)
  else
  let codec_context :=
    avcodec_parameters_to_context (decoder_opened w) codec_params in
  call (Call_avcodec_open2_decoder (decoder_open_ret w)) ;;
  if decoder_open_ret w <? 0 then
    std_cerr ("Could not open codec" ++ nl) ;;
    return_ (-1)
  else
  call (Call_speex_preprocess_state_init
          (frame_size codec_context) (sample_rate codec_context)) ;;
  let preprocess_state :=
    speex_preprocess_state_init (frame_size codec_context)
                                (sample_rate codec_context) in
  let denoise := 1 in
  let noiseSuppress := -10 in
  call (Call_speex_preprocess_ctl SPEEX_PREPROCESS_SET_DENOISE denoise) ;;
  let preprocess_state :=
    speex_preprocess_ctl preprocess_state SPEEX_PREPROCESS_SET_DENOISE denoise in
  call (Call_speex_preprocess_ctl SPEEX_PREPROCESS_SET_NOISE_SUPPRESS noiseSuppress) ;;
  let preprocess_state :=
    speex_preprocess_ctl preprocess_state SPEEX_PREPROCESS_SET_NOISE_SUPPRESS
                         noiseSuppress in
  call (Call_avformat_alloc_output_context2 "mp3" output_filename
          (output_context_allocated w)) ;;
  if negb (output_context_allocated w) then
    std_cerr ("Could not create output context" ++ nl) ;;
    return_ (-1)
  else
  call (Call_avcodec_find_encoder AV_CODEC_ID_MP3 (encoder_found w)) ;;
  if negb (encoder_found w) then
    std_cerr ("MP3 encoder not found" ++ nl) ;;
    return_ (-1)
  else
  call (Call_avformat_new_stream (stream_created w)) ;;
  if negb (stream_created w) then
    std_cerr ("Failed to create a new stream for output" ++ nl) ;;
    return_ (-1)
  else
  let o_sample_rate := sample_rate codec_context in
  let o_channel_layout := AV_CH_LAYOUT_STEREO in
  let o_channels := av_get_channel_layout_nb_channels o_channel_layout in
  let o_sample_fmt := hd AV_SAMPLE_FMT_NONE (encoder_sample_fmts w) in
  let o_bit_rate := 192000 in
  call (Call_avcodec_open2_encoder AV_CODEC_ID_MP3 o_sample_rate o_channel_layout
          o_channels o_sample_fmt o_bit_rate (encoder_open_ret w)) ;;
  if encoder_open_ret w <? 0 then
    std_cerr ("Could not open the encoder" ++ nl) ;;
    return_ (-1)
  else
  let out_codec_context :=
    mkCtx (encoder_opened w) [] AV_CODEC_ID_MP3 o_sample_rate
          (encoder_frame_size w) o_channel_layout o_channels o_sample_fmt
          o_bit_rate 0 in
  let out_codec_context :=
    if negb (Z.land (oformat_flags w) AVFMT_GLOBALHEADER =? 0) then
      set_flags out_codec_context
                (Z.lor (flags out_codec_context) AV_CODEC_FLAG_GLOBAL_HEADER)
    else out_codec_context in
  call Call_avcodec_parameters_from_context ;;
  (if Z.land (oformat_flags w) AVFMT_NOFILE =? 0 then
     call (Call_avio_open output_filename (avio_open_ret w)) ;;
     if avio_open_ret w <? 0 then
       std_cerr ("Could not open output file " ++ output_filename ++ nl) ;;
       return_ (-1)
     else ret tt
   else ret tt) ;;
  call (Call_avformat_write_header (avformat_write_header_ret w)) ;;
  if avformat_write_header_ret w <? 0 then
    std_cerr ("Error occurred when opening output file" ++ nl) ;;
    return_ (-1)
  else
  ret (mkPipeline audio_stream_index codec_context preprocess_state
                  out_codec_context).

Definition set_codec_context (st : Pipeline)
    (c : AVCodecContext DecoderState AVFrame) : Pipeline :=
  mkPipeline (audio_stream_index st) c (preprocess_state st) (out_codec_context st).

Definition set_denoised (st : Pipeline) (sp : SpeexPreprocessState)
    (c : AVCodecContext EncoderState AVPacket) : Pipeline :=
  mkPipeline (audio_stream_index st) (codec_context st) sp c.

(** Lines 157-160: [while (avcodec_receive_packet (...) == 0)] over the
    packets the encoder has ready; the call that finds none ends the loop. *)
Fixpoint write_packets (ready_packets : list AVPacket) : Run unit :=
  match ready_packets with
  | [] => call (Call_avcodec_receive_packet None)
  | out_packet :: rest =>
      call (Call_avcodec_receive_packet (Some out_packet)) ;;
      call (Call_av_interleaved_write_frame out_packet) ;;
      call Call_av_packet_unref ;;
      write_packets rest
  end.

(** Line 153: Speex works in place on the first plane of the frame, read as
    16-bit values.  It is handed a bare pointer; how many values it reads and
    rewrites is its own business (the frame length it was initialised with,
    line 78).  The model covers the call as long as that many values lie
    within the plane ([denoise_in_bounds]): there the values it is given and
    the values it writes back are those of the plane.  Where Speex goes past
    the end of the plane, what it reads and what it overwrites is not
    determined by the program, and nothing is stated about it. *)
Definition denoise_frame (bo : ByteOrder) (sp : SpeexPreprocessState)
    (frame : AVFrame) : SpeexPreprocessState * AVFrame :=
  let '(sp', samples) := speex_preprocess_run sp (denoiser_input bo frame) in
  (sp', with_data0 frame (store_int16s bo samples (data0 frame))).

(** Lines 152-161: the body of the inner loop, for one decoded frame.  There
    is one frame object: the frame sent to the encoder is the decoded frame
    as Speex left it. *)
Definition process_frame (bo : ByteOrder) (frame : AVFrame) (st : Pipeline)
  : Run Pipeline :=
  call (Call_speex_preprocess_run frame) ;;
  let '(sp, frame) := denoise_frame bo (preprocess_state st) frame in
  let '(r, enc) := avcodec_send_frame (out_codec_context st) frame in
  call (Call_avcodec_send_frame (Some frame) r) ;;
  if r =? 0 then
    write_packets (ready enc) ;;
    ret (set_denoised st sp (set_codec enc (priv_data enc) []))
  else ret (set_denoised st sp enc).

(** Lines 151-162: [while (avcodec_receive_frame (...) == 0)] over the frames
    the decoder has ready. *)
Fixpoint receive_frames (bo : ByteOrder) (ready_frames : list AVFrame)
    (st : Pipeline) : Run Pipeline :=
  match ready_frames with
  | [] => call (Call_avcodec_receive_frame None) ;; ret st
  | frame :: rest =>
      call (Call_avcodec_receive_frame (Some frame)) ;;
      st' <- process_frame bo frame st ;;
      receive_frames bo rest st'
  end.

(** Lines 149-165: the body of the outer loop, for one packet. *)
Definition handle_packet (bo : ByteOrder) (packet : AVPacket) (st : Pipeline)
  : Run Pipeline :=
  st' <- (if stream_index packet =? audio_stream_index st then
            let '(r, dec) := avcodec_send_packet (codec_context st) packet in
            call (Call_avcodec_send_packet (Some packet) r) ;;
            if r =? 0 then
              receive_frames bo (ready dec)
                (set_codec_context st (set_codec dec (priv_data dec) []))
            else ret (set_codec_context st dec)
          else ret st) ;;
  call Call_av_packet_unref ;;
  ret st'.

(** Lines 148-166: [while (av_read_frame (...) >= 0)]. *)
Fixpoint streaming (bo : ByteOrder) (input : list AVPacket) (st : Pipeline)
  : Run Pipeline :=
  match input with
  | [] => call (Call_av_read_frame None) ;; ret st
  | packet :: rest =>
      call (Call_av_read_frame (Some packet)) ;;
      st' <- handle_packet bo packet st ;;
      streaming bo rest st'
  end.

(** Lines 169-181: the trailer, the releases, the final message and
    [return 0]. *)
Definition closing : Run Empty_set :=
  call Call_av_write_trailer ;;
  call Call_av_frame_free ;;
  call Call_av_packet_free ;;
  call Call_avcodec_free_context ;;
  call Call_avformat_close_input ;;
  call Call_speex_preprocess_state_destroy ;;
  call Call_avcodec_close ;;
  call Call_avformat_free_context ;;
  std_cout ("Processing completed." ++ nl) ;;
  return_ 0.

Definition main_body (w : World) : Run Empty_set :=
  st <- opening w ;;
  streaming (host_byte_order w) (input_packets w) st ;;
  closing.

(** One run of the program: its exit code and what it did. *)
Definition main (w : World) : Z * Process :=
  match main_body w start with
  | (Return code, p) => (code, p)
  | (Continue impossible, _) => match impossible with end
  end.

Definition exit_code (w : World) : Z := fst (main w).
Definition trace (w : World) : list Call := calls (snd (main w)).
Definition stderr (w : World) : list string := cerr (snd (main w)).

(** The condition under which no step of [opening] returns early, read off
    its tests. *)
Definition opening_succeeds (w : World) : bool :=
  negb (argc w <? 3)
  && (avformat_open_input_ret w =? 0)
  && negb (avformat_find_stream_info_ret w <? 0)
  && negb (find_audio_stream 0 (streams w) =? -1)
  && decoder_found w
  && negb (decoder_open_ret w <? 0)
  && output_context_allocated w
  && encoder_found w
  && stream_created w
  && negb (encoder_open_ret w <? 0)
  && (negb (Z.land (oformat_flags w) AVFMT_NOFILE =? 0)
      || negb (avio_open_ret w <? 0))
  && negb (avformat_write_header_ret w <? 0).

End Program.

(** ** Reading a run *)

(** The frames the decoder handed over, in order. *)
Definition frames_received (t : list Call) : list AVFrame :=
  flat_map (fun c => match c with
                     | Call_avcodec_receive_frame (Some f) => [f]
                     | _ => []
                     end) t.

(** The chunks given to the denoise stage: the frames whose first plane was
    passed to [speex_preprocess_run]. *)
Definition denoise_chunks (t : list Call) : list AVFrame :=
  flat_map (fun c => match c with
                     | Call_speex_preprocess_run f => [f]
                     | _ => []
                     end) t.

(** The chunks given to the encoder: the frames passed to
    [avcodec_send_frame]. *)
Definition encoder_chunks (t : list Call) : list AVFrame :=
  flat_map (fun c => match c with
                     | Call_avcodec_send_frame (Some f) _ => [f]
                     | _ => []
                     end) t.

(** The packets written to the output file. *)
Definition written_packets (t : list Call) : list AVPacket :=
  flat_map (fun c => match c with
                     | Call_av_interleaved_write_frame p => [p]
                     | _ => []
                     end) t.

(** A request to drain a codec: a send call with a null argument. *)
Definition is_drain (c : Call) : bool :=
  match c with
  | Call_avcodec_send_packet None _ => true
  | Call_avcodec_send_frame None _ => true
  | _ => false
  end.

(** A send call that the codec refused. *)
Definition is_failed_send (c : Call) : bool :=
  match c with
  | Call_avcodec_send_packet _ r => negb (r =? 0)
  | Call_avcodec_send_frame _ r => negb (r =? 0)
  | _ => false
  end.

(** A call that puts bytes into the output file. *)
Definition is_output (c : Call) : bool :=
  match c with
  | Call_avformat_write_header r => negb (r <? 0)
  | Call_av_interleaved_write_frame _ => true
  | Call_av_write_trailer => true
  | _ => false
  end.

Definition is_trailer (c : Call) : bool :=
  match c with Call_av_write_trailer => true | _ => false end.

Definition total_samples (fs : list AVFrame) : Z :=
  fold_right (fun f acc => nb_samples f + acc) 0 fs.

(** ** A small concrete library *)

(** [av_get_bytes_per_sample] and [av_sample_fmt_is_planar]. *)
Definition av_get_bytes_per_sample (fmt : AVSampleFormat) : Z :=
  match fmt with
  | AV_SAMPLE_FMT_NONE => 0
  | AV_SAMPLE_FMT_U8 | AV_SAMPLE_FMT_U8P => 1
  | AV_SAMPLE_FMT_S16 | AV_SAMPLE_FMT_S16P => 2
  | AV_SAMPLE_FMT_S32 | AV_SAMPLE_FMT_S32P => 4
  | AV_SAMPLE_FMT_FLT | AV_SAMPLE_FMT_FLTP => 4
  | AV_SAMPLE_FMT_DBL | AV_SAMPLE_FMT_DBLP => 8
  | AV_SAMPLE_FMT_S64 | AV_SAMPLE_FMT_S64P => 8
  end.

Definition av_sample_fmt_is_planar (fmt : AVSampleFormat) : bool :=
  match fmt with
  | AV_SAMPLE_FMT_U8P | AV_SAMPLE_FMT_S16P | AV_SAMPLE_FMT_S32P
  | AV_SAMPLE_FMT_FLTP | AV_SAMPLE_FMT_DBLP | AV_SAMPLE_FMT_S64P => true
  | _ => false
  end.

(** A raw-PCM decoder: the payload of a packet is the sample data of one
    frame.  It refuses an empty packet, and it may hold back its newest
    [pcm_delay] frames. *)
Record PcmDecoder : Type := mkPcm {
  pcm_format : AVSampleFormat;
  pcm_channels : Z;
  pcm_delay : nat;
  pcm_held : list AVFrame
}.

Fixpoint split_planes (n len : nat) (payload : list Z) : list (list Z) :=
  match n with
  | O => []
  | S n' => firstn len payload :: split_planes n' len (skipn len payload)
  end.

Definition pcm_frame (d : PcmDecoder) (p : AVPacket) : AVFrame :=
  let bps := av_get_bytes_per_sample (pcm_format d) in
  let n := Z.of_nat (List.length (pkt_data p)) / (bps * pcm_channels d) in
  mkFrame (if av_sample_fmt_is_planar (pcm_format d)
           then split_planes (Z.to_nat (pcm_channels d)) (Z.to_nat (n * bps))
                             (pkt_data p)
           else [pkt_data p])
          n (pcm_format d) (pcm_channels d) (pkt_pts p).

Definition AVERROR_INVALIDDATA : positive := 1094995529.
Definition EINVAL : positive := 22.

Definition pcm_decode (d : PcmDecoder) (p : AVPacket)
  : SendResult PcmDecoder AVFrame :=
  match pkt_data p with
  | [] => Refused AVERROR_INVALIDDATA d
  | _ =>
      let q := pcm_held d ++ [pcm_frame d p] in
      if (pcm_delay d <? List.length q)%nat
      then Accepted (mkPcm (pcm_format d) (pcm_channels d) (pcm_delay d) (tl q))
                    (firstn 1 q)
      else Accepted (mkPcm (pcm_format d) (pcm_channels d) (pcm_delay d) q) []
  end.

(** An encoder that takes a frame of at most 1152 samples and emits one
    packet for it (the bytes of the frame), and refuses a longer frame.  Its
    state counts the frames it took. *)
Definition block_encode (n : Z) (f : AVFrame) : SendResult Z AVPacket :=
  if nb_samples f <=? 1152
  then Accepted (n + 1) [mkPacket 0 (pts f) (List.concat (data f))]
  else Refused EINVAL n.

(** A preprocessor that halves the first [frame_size] values it is given. *)
Definition halve_run (frame_size : Z) (samples : list Z) : Z * list Z :=
  (frame_size, map (fun v => v / 2) (firstn (Z.to_nat frame_size) samples)).

Definition pcm_library : MediaLibrary := {|
  DecoderState := PcmDecoder;
  EncoderState := Z;
  SpeexPreprocessState := Z;
  decode := pcm_decode;
  decoder_delayed := pcm_held;
  encode := block_encode;
  speex_preprocess_state_init := fun frame_size _ => frame_size;
  speex_preprocess_ctl := fun st _ _ => st;
  speex_preprocess_run := halve_run
|}.

(** A file with a video stream (index 0) and an audio stream (index 1). *)
Definition video_stream : AVCodecParameters :=
  mkPar AVMEDIA_TYPE_VIDEO 27 AV_SAMPLE_FMT_NONE 0 0 0 0 0.

Definition audio_stream (fmt : AVSampleFormat) (nch frame_len : Z)
  : AVCodecParameters :=
  mkPar AVMEDIA_TYPE_AUDIO 65536 fmt 1411200 4 nch 8000 frame_len.

(** A run in which every set-up call succeeds: decoder [d], nominal decoder
    frame length [frame_len], the given packets. *)
Definition pcm_world (d : PcmDecoder) (frame_len : Z) (pkts : list AVPacket)
  : World (lib := pcm_library) :=
  mkWorld (lib := pcm_library)
    ["noise_removal"; "in.avi"; "out.mp3"]%string LittleEndian 0 0
    [video_stream; audio_stream (pcm_format d) (pcm_channels d) frame_len]
    pkts true 0 d true true [AV_SAMPLE_FMT_S16P] true 0 0 1152 0 0 0.

(** [n] bytes, all equal to [b]. *)
Definition bytes (n : nat) (b : Z) : list Z := repeat b n.

Definition mono_s16 : PcmDecoder := mkPcm AV_SAMPLE_FMT_S16 1 0 [].

(** ** The statements of the specification, and runs to test them on *)

Section Statements.

Context {lib : MediaLibrary}.

(** The parameters of the stream [main] selects. *)
Definition audio_parameters (w : World) : AVCodecParameters :=
  nth (Z.to_nat (find_audio_stream 0 (streams w))) (streams w) default_parameters.

(** The frame length the denoise stage is configured with
    ([codec_context->frame_size] at line 78). *)
Definition denoise_frame_length (w : World) : Z :=
  par_frame_size (audio_parameters w).

(** The same run on another sequence of packets. *)
Definition set_input_packets (w : World) (pkts : list AVPacket) : World :=
  mkWorld (argv w) (host_byte_order w) (avformat_open_input_ret w)
    (avformat_find_stream_info_ret w) (streams w) pkts (decoder_found w)
    (decoder_open_ret w) (decoder_opened w) (output_context_allocated w)
    (encoder_found w) (encoder_sample_fmts w) (stream_created w)
    (encoder_open_ret w) (encoder_opened w) (encoder_frame_size w)
    (oformat_flags w) (avio_open_ret w) (avformat_write_header_ret w).

(** Chunk-length invariant, as specified: every chunk given to the denoise
    stage has the configured denoise frame length, every chunk given to the
    encoder has the encoder's frame length. *)
Definition chunk_length_invariant (w : World) : Prop :=
  Forall (fun f => nb_samples f = denoise_frame_length w)
         (denoise_chunks (trace w))
  /\ Forall (fun f => nb_samples f = encoder_frame_size w)
            (encoder_chunks (trace w)).

(** The audio the input holds: the frames the decoder yields for the packets
    of stream [idx], taken in order, and the frames it still holds back when
    the packets are used up. *)
Fixpoint audio_of (idx : Z) (st : DecoderState) (pkts : list AVPacket)
  : list AVFrame :=
  match pkts with
  | [] => decoder_delayed st
  | p :: rest =>
      if stream_index p =? idx then
        match decode st p with
        | Accepted st' out => out ++ audio_of idx st' rest
        | Refused _ st' => audio_of idx st' rest
        end
      else audio_of idx st rest
  end.

(** The state the decoder is left in by the same packets. *)
Fixpoint decoder_after (idx : Z) (st : DecoderState) (pkts : list AVPacket)
  : DecoderState :=
  match pkts with
  | [] => st
  | p :: rest =>
      if stream_index p =? idx then
        match decode st p with
        | Accepted st' _ => decoder_after idx st' rest
        | Refused _ st' => decoder_after idx st' rest
        end
      else decoder_after idx st rest
  end.

Definition input_audio (w : World) : list AVFrame :=
  audio_of (find_audio_stream 0 (streams w)) (decoder_opened w) (input_packets w).

Definition decoder_at_end (w : World) : DecoderState :=
  decoder_after (find_audio_stream 0 (streams w)) (decoder_opened w)
                (input_packets w).

(** A padding amount: none, or a positive one below the frame length. *)
Definition padding_below (len pad : Z) : Prop := pad = 0 \/ 0 < pad < len.

(** Sample conservation, as specified: what enters the encoder is the audio
    of the input plus one bounded padding per reconciliation boundary. *)
Definition sample_conservation (w : World) : Prop :=
  exists pad1 pad2 : Z,
    padding_below (denoise_frame_length w) pad1
    /\ padding_below (encoder_frame_size w) pad2
    /\ total_samples (encoder_chunks (trace w))
       = total_samples (input_audio w) + pad1 + pad2.

(** Draining, as specified: before the trailer is written the decoder and
    the encoder are both asked to release what they hold. *)
Definition drains_before_trailer (t : list Call) : Prop :=
  exists before after : list Call,
    t = before ++ Call_av_write_trailer :: after
    /\ (exists r, In (Call_avcodec_send_packet None r) before)
    /\ (exists r, In (Call_avcodec_send_frame None r) before).

(** Conversion of a floating-point sample, as specified: scale [-1, 1] to
    the 16-bit range and clamp. *)
Definition spec_float_to_int16 (x : float32) : Z :=
  Z.max INT16_MIN (Z.min INT16_MAX (Qfloor (f32_value x * inject_Z 32768))).

(** Saturating conversion, as specified: when the first plane of a frame
    holds the floating-point samples [samples], the denoise stage is given
    their converted values. *)
Definition saturating_conversion (bo : ByteOrder) (f : AVFrame)
    (samples : list float32) : Prop :=
  data0 f = flat_map (f32_bytes bo) samples ->
  denoiser_input bo f = map spec_float_to_int16 samples.

(** The sample formats and channel counts the specification's Format Adapter
    accepts: 8, 16 and 32-bit integers, 32 and 64-bit floats, packed or
    planar; as many channels as the output has, or mono to stereo, or stereo
    to mono. *)
Definition spec_format_supported (fmt : AVSampleFormat) : bool :=
  match fmt with
  | AV_SAMPLE_FMT_NONE | AV_SAMPLE_FMT_S64 | AV_SAMPLE_FMT_S64P => false
  | _ => true
  end.

Definition spec_layout_supported (c_in c_out : Z) : bool :=
  (c_in =? c_out) || ((c_in =? 1) && (c_out =? 2)) || ((c_in =? 2) && (c_out =? 1)).

Definition spec_frame_supported (f : AVFrame) : bool :=
  spec_format_supported (format f)
  && spec_layout_supported (channels f)
       (av_get_channel_layout_nb_channels AV_CH_LAYOUT_STEREO).

(** The exit code, as specified: 0 on success; nonzero when opening fails,
    and then nothing has been written; nonzero when a decoded frame is of an
    unsupported format or layout. *)
Definition exit_code_rule (w : World) : Prop :=
  if opening_succeeds w then
    if forallb spec_frame_supported (frames_received (trace w))
    then exit_code w = 0
    else exit_code w <> 0
  else exit_code w <> 0 /\ existsb is_output (trace w) = false.

(** Failures are logged, as specified: a refused packet or frame leaves a
    message. *)
Definition failures_logged (w : World) : Prop :=
  existsb is_failed_send (trace w) = true -> stderr w <> [].

(** The relation between a frame as the decoder returned it and the frame
    the encoder is given: only the first plane may differ, and it keeps its
    length. *)
Definition only_data0_changed (received sent : AVFrame) : Prop :=
  nb_samples sent = nb_samples received
  /\ format sent = format received
  /\ channels sent = channels received
  /\ pts sent = pts received
  /\ tl (data sent) = tl (data received)
  /\ List.length (data sent) = List.length (data received)
  /\ List.length (data0 sent) = List.length (data0 received).

(** The configurations the encoder was opened with. *)
Definition encoder_configurations (t : list Call)
  : list (Z * Z * Z * Z * AVSampleFormat * Z) :=
  flat_map (fun c => match c with
                     | Call_avcodec_open2_encoder id sr cl ch fmt br _ =>
                         [(id, sr, cl, ch, fmt, br)]
                     | _ => []
                     end) t.

(** The condition under which [main] gets as far as opening the encoder. *)
Definition reaches_encoder_open (w : World) : bool :=
  negb (argc w <? 3)
  && (avformat_open_input_ret w =? 0)
  && negb (avformat_find_stream_info_ret w <? 0)
  && negb (find_audio_stream 0 (streams w) =? -1)
  && decoder_found w
  && negb (decoder_open_ret w <? 0)
  && output_context_allocated w
  && encoder_found w
  && stream_created w.

(** The calls that end every completed run. *)
Definition closing_calls : list Call :=
  [Call_av_write_trailer; Call_av_frame_free; Call_av_packet_free;
   Call_avcodec_free_context; Call_avformat_close_input;
   Call_speex_preprocess_state_destroy; Call_avcodec_close;
   Call_avformat_free_context].

End Statements.

(** ** Concrete runs *)

(** One audio packet of 200 mono samples where the decoder's nominal frame
    length is 160 and the encoder's is 1152. *)
Definition long_frame_world : World (lib := pcm_library) :=
  pcm_world mono_s16 160 [mkPacket 1 0 (bytes 400 1)].

(** Two audio packets of 160 samples each, through a decoder that holds its
    newest frame back. *)
Definition delayed_world : World (lib := pcm_library) :=
  pcm_world (mkPcm AV_SAMPLE_FMT_S16 1 1 []) 160
            [mkPacket 1 0 (bytes 320 1); mkPacket 1 160 (bytes 320 1)].

(** One audio packet of exactly the nominal 160 samples. *)
Definition plain_world : World (lib := pcm_library) :=
  pcm_world mono_s16 160 [mkPacket 1 0 (bytes 320 1)].

(** The binary32 number 2.0, and a stream of 32-bit float samples that holds
    it. *)
Definition f32_two : float32 := mkFloat32 false 128 0.

Definition float_world : World (lib := pcm_library) :=
  pcm_world (mkPcm AV_SAMPLE_FMT_FLT 1 0 []) 1
            [mkPacket 1 0 (f32_bytes LittleEndian f32_two)].

(** A 5.1 stream: six channels of 16-bit samples. *)
Definition surround_world : World (lib := pcm_library) :=
  pcm_world (mkPcm AV_SAMPLE_FMT_S16 6 0 []) 160 [mkPacket 1 0 (bytes 24 1)].

(** A packet the decoder refuses, a frame the encoder refuses (2000 samples),
    and a packet that goes through. *)
Definition refused_world : World (lib := pcm_library) :=
  pcm_world mono_s16 160
            [mkPacket 1 0 []; mkPacket 1 1 (bytes 4000 1);
             mkPacket 1 2001 (bytes 320 1)].

(** A video packet between two audio packets. *)
Definition mixed_world : World (lib := pcm_library) :=
  pcm_world mono_s16 2
            [mkPacket 1 0 [2; 0; 4; 0]; mkPacket 0 0 [9; 9; 9];
             mkPacket 1 2 [6; 0; 8; 0]].


(** ** Runs compose *)

(** What a computation adds to a process when it is started on a fresh one,
    and what it adds to any other. *)
Definition log (p q : Process) : Process :=
  mkProcess (calls p ++ calls q) (cerr p ++ cerr q) (cout p ++ cout q).

Definition flow_of {A} (m : Run A) : Flow A := fst (m start).
Definition calls_of {A} (m : Run A) : list Call := calls (snd (m start)).
Definition cerr_of {A} (m : Run A) : list string := cerr (snd (m start)).
Definition cout_of {A} (m : Run A) : list string := cout (snd (m start)).

(** A computation only appends: started on [p], it does what it does on a
    fresh process, after [p]. *)
Definition appends {A} (m : Run A) : Prop :=
  forall p, m p = (flow_of m, log p (snd (m start))).

(** The calls of the processing loop, with no null argument. *)
Definition is_loop_call (c : Call) : bool :=
  match c with
  | Call_av_read_frame _
  | Call_avcodec_send_packet (Some _) _
  | Call_avcodec_receive_frame _
  | Call_speex_preprocess_run _
  | Call_avcodec_send_frame (Some _) _
  | Call_avcodec_receive_packet _
  | Call_av_interleaved_write_frame _
  | Call_av_packet_unref => true
  | _ => false
  end.

(** The calls that set the pipeline up. *)
Definition is_setup_call (c : Call) : bool :=
  match c with
  | Call_avformat_open_input _ _
  | Call_avformat_find_stream_info _
  | Call_avcodec_find_decoder _ _
  | Call_avcodec_open2_decoder _
  | Call_speex_preprocess_state_init _ _
  | Call_speex_preprocess_ctl _ _
  | Call_avformat_alloc_output_context2 _ _ _
  | Call_avcodec_find_encoder _ _
  | Call_avformat_new_stream _
  | Call_avcodec_open2_encoder _ _ _ _ _ _ _
  | Call_avcodec_parameters_from_context
  | Call_avio_open _ _
  | Call_avformat_write_header _ => true
  | _ => false
  end.

Section LoopNotions.

Context {lib : MediaLibrary}.

(** A computation of the loop: it only appends, falls through, prints
    nothing, and makes loop calls only. *)
Definition steady {A} (m : Run A) : Prop :=
  appends m
  /\ (exists a, flow_of m = Continue a)
  /\ cerr_of m = []
  /\ cout_of m = []
  /\ forallb is_loop_call (calls_of m) = true.

(** A stretch of the run in which every frame the decoder handed over went
    to the denoise stage as it was, and on to the encoder with only its
    first plane changed. *)
Definition balanced (t : list Call) : Prop :=
  denoise_chunks t = frames_received t
  /\ Forall2 only_data0_changed (frames_received t) (encoder_chunks t).

(** The decoder context after [avcodec_send_packet] and the receive loop. *)
Definition context_after (c : AVCodecContext DecoderState AVFrame)
    (packet : AVPacket) : AVCodecContext DecoderState AVFrame :=
  match decode (priv_data c) packet with
  | Accepted d _ => set_codec c d []
  | Refused _ d => set_codec c d (ready c)
  end.

(** The frames the receive loop hands over after that send call. *)
Definition frames_after (c : AVCodecContext DecoderState AVFrame)
    (packet : AVPacket) : list AVFrame :=
  match decode (priv_data c) packet with
  | Accepted _ out => ready c ++ out
  | Refused _ _ => []
  end.

End LoopNotions.

(** The pipeline of the concrete runs as the loop starts: audio stream 1,
    mono 16-bit samples, nominal frame length 160. *)
Definition pcm_pipeline : Pipeline (lib := pcm_library) :=
  mkPipeline (lib := pcm_library) 1
    (avcodec_parameters_to_context (lib := pcm_library) mono_s16
       (audio_stream AV_SAMPLE_FMT_S16 1 160))
    160
    (mkCtx 0 [] AV_CODEC_ID_MP3 8000 1152 AV_CH_LAYOUT_STEREO 2
           AV_SAMPLE_FMT_S16P 192000 0).

(** ** Further readings of a run *)

(** The packets the demuxer handed over, and the packets given to the
    decoder. *)
Definition packets_read (t : list Call) : list AVPacket :=
  flat_map (fun c => match c with
                     | Call_av_read_frame (Some p) => [p]
                     | _ => []
                     end) t.

Definition packets_sent (t : list Call) : list AVPacket :=
  flat_map (fun c => match c with
                     | Call_avcodec_send_packet (Some p) _ => [p]
                     | _ => []
                     end) t.

Definition is_unref (c : Call) : bool :=
  match c with Call_av_packet_unref => true | _ => false end.

(** The calls that release a resource (lines 172-178). *)
Definition is_release (c : Call) : bool :=
  match c with
  | Call_av_frame_free | Call_av_packet_free | Call_avcodec_free_context
  | Call_avformat_close_input | Call_speex_preprocess_state_destroy
  | Call_avcodec_close | Call_avformat_free_context => true
  | _ => false
  end.

(** The calls that create and configure the Speex preprocessor. *)
Definition is_speex_setup (c : Call) : bool :=
  match c with
  | Call_speex_preprocess_state_init _ _ | Call_speex_preprocess_ctl _ _ => true
  | _ => false
  end.

Definition is_avio_open (c : Call) : bool :=
  match c with Call_avio_open _ _ => true | _ => false end.

(** The calls made for one decoded frame, and for one packet after it has
    been read. *)
Definition is_frame_call (c : Call) : bool :=
  match c with
  | Call_avcodec_receive_frame _
  | Call_speex_preprocess_run _
  | Call_avcodec_send_frame (Some _) _
  | Call_avcodec_receive_packet _
  | Call_av_interleaved_write_frame _
  | Call_av_packet_unref => true
  | _ => false
  end.

(** The configuration of a codec context: every field but the codec's
    private state and its ready outputs. *)
Definition configuration {St Out} (c : AVCodecContext St Out)
  : Z * Z * Z * Z * Z * AVSampleFormat * Z * Z :=
  (codec_id c, sample_rate c, frame_size c, channel_layout c, ctx_channels c,
   sample_fmt c, bit_rate c, flags c).

Section Threading.

Context {lib : MediaLibrary}.

Definition stdout (w : World) : list string := cout (snd (main w)).

(** Denoising a sequence of frames one after the other, the state of the
    preprocessor carried from each frame to the next: the frames that come
    out, and the state left at the end. *)
Fixpoint denoise_all (bo : ByteOrder) (sp : SpeexPreprocessState)
    (fs : list AVFrame) : list AVFrame :=
  match fs with
  | [] => []
  | f :: rest =>
      snd (denoise_frame bo sp f)
      :: denoise_all bo (fst (denoise_frame bo sp f)) rest
  end.

Fixpoint speex_after (bo : ByteOrder) (sp : SpeexPreprocessState)
    (fs : list AVFrame) : SpeexPreprocessState :=
  match fs with
  | [] => sp
  | f :: rest => speex_after bo (fst (denoise_frame bo sp f)) rest
  end.

(** Encoding a sequence of frames one after the other: the packets the
    encoder releases for the frames it accepts, in order, and the state it is
    left in. *)
Fixpoint encoder_output (s : EncoderState) (fs : list AVFrame) : list AVPacket :=
  match fs with
  | [] => []
  | f :: rest =>
      match encode s f with
      | Accepted s' out => out ++ encoder_output s' rest
      | Refused _ s' => encoder_output s' rest
      end
  end.

Fixpoint encoder_after (s : EncoderState) (fs : list AVFrame) : EncoderState :=
  match fs with
  | [] => s
  | f :: rest =>
      match encode s f with
      | Accepted s' _ => encoder_after s' rest
      | Refused _ s' => encoder_after s' rest
      end
  end.

(** The pipeline [opening] hands to the loop when every step succeeds. *)
Definition initial_pipeline (w : World) : Pipeline :=
  mkPipeline
    (find_audio_stream 0 (streams w))
    (avcodec_parameters_to_context (decoder_opened w) (audio_parameters w))
    (speex_preprocess_ctl
       (speex_preprocess_ctl
          (speex_preprocess_state_init (par_frame_size (audio_parameters w))
                                       (par_sample_rate (audio_parameters w)))
          SPEEX_PREPROCESS_SET_DENOISE 1)
       SPEEX_PREPROCESS_SET_NOISE_SUPPRESS (-10))
    (mkCtx (encoder_opened w) [] AV_CODEC_ID_MP3
           (par_sample_rate (audio_parameters w)) (encoder_frame_size w)
           AV_CH_LAYOUT_STEREO 2
           (hd AV_SAMPLE_FMT_NONE (encoder_sample_fmts w)) 192000
           (if Z.land (oformat_flags w) AVFMT_GLOBALHEADER =? 0
            then 0 else AV_CODEC_FLAG_GLOBAL_HEADER)).

(** The denoise call on [f] stays within the first plane: Speex rewrites no
    more 16-bit values than the plane holds (it reads as many as it
    rewrites). *)
Definition denoise_in_bounds (bo : ByteOrder) (sp : SpeexPreprocessState)
    (f : AVFrame) : Prop :=
  (List.length (snd (speex_preprocess_run sp (denoiser_input bo f)))
   <= List.length (denoiser_input bo f))%nat.




(** What the loop, run from [st] to [st'] with the calls [t], has done to the
    pipeline: the stream index and both configurations are as before, the
    frames given to the encoder are the received frames denoised in order,
    and, when no packet was waiting in the encoder context, none is waiting
    now and the packets written are those the encoder released. *)
Definition loop_effect (bo : ByteOrder) (st st' : Pipeline) (t : list Call)
  : Prop :=
  audio_stream_index st' = audio_stream_index st
  /\ configuration (codec_context st') = configuration (codec_context st)
  /\ configuration (out_codec_context st') = configuration (out_codec_context st)
  /\ encoder_chunks t = denoise_all bo (preprocess_state st) (frames_received t)
  /\ preprocess_state st'
     = speex_after bo (preprocess_state st) (frames_received t)
  /\ (ready (out_codec_context st) = [] ->
      ready (out_codec_context st') = []
      /\ written_packets t
         = encoder_output (priv_data (out_codec_context st)) (encoder_chunks t)
      /\ priv_data (out_codec_context st')
         = encoder_after (priv_data (out_codec_context st)) (encoder_chunks t)).

(** A computation that only appends, falls through, and makes calls of one
    kind only. *)
Definition confined {A} (P : Call -> bool) (m : Run A) : Prop :=
  appends m
  /\ (exists a, flow_of m = Continue a)
  /\ forallb P (calls_of m) = true.

(** The first set-up step that fails decides the run: the same world with
    another answer of [avio_open]. *)
Definition set_avio_open_ret (w : World) (r : Z) : World :=
  mkWorld (argv w) (host_byte_order w) (avformat_open_input_ret w)
    (avformat_find_stream_info_ret w) (streams w) (input_packets w)
    (decoder_found w) (decoder_open_ret w) (decoder_opened w)
    (output_context_allocated w) (encoder_found w) (encoder_sample_fmts w)
    (stream_created w) (encoder_open_ret w) (encoder_opened w)
    (encoder_frame_size w) (oformat_flags w) r (avformat_write_header_ret w).

(** The condition under which [main] gets as far as creating the Speex
    preprocessor, and as far as the test on [AVFMT_NOFILE]. *)
Definition reaches_speex_init (w : World) : bool :=
  negb (argc w <? 3)
  && (avformat_open_input_ret w =? 0)
  && negb (avformat_find_stream_info_ret w <? 0)
  && negb (find_audio_stream 0 (streams w) =? -1)
  && decoder_found w
  && negb (decoder_open_ret w <? 0).

Definition reaches_output_open (w : World) : bool :=
  reaches_encoder_open w && negb (encoder_open_ret w <? 0).

End Threading.




(** A planar stereo frame of two samples per channel, and values for its
    first plane. *)
Definition planar_frame : AVFrame :=
  mkFrame [[2; 0; 4; 0]; [6; 0; 8; 0]] 2 AV_SAMPLE_FMT_S16P 2 0.

(** A file with two video streams, a subtitle stream and no audio. *)
Definition silent_world : World (lib := pcm_library) :=
  mkWorld (lib := pcm_library)
    ["noise_removal"; "in.avi"; "out.mp3"]%string LittleEndian 0 0
    [video_stream; video_stream;
     mkPar AVMEDIA_TYPE_SUBTITLE 94208 AV_SAMPLE_FMT_NONE 0 0 0 0 0]
    [mkPacket 0 0 [1; 2; 3]] true 0 mono_s16 true true
    [AV_SAMPLE_FMT_S16P] true 0 0 1152 0 0 0.

(** The command line holds the program name and one file name. *)
Definition one_argument_world : World (lib := pcm_library) :=
  mkWorld (lib := pcm_library)
    ["noise_removal"; "in.avi"]%string LittleEndian 0 0
    [video_stream; audio_stream AV_SAMPLE_FMT_S16 1 160]
    [mkPacket 1 0 (bytes 320 1)] true 0 mono_s16 true true
    [AV_SAMPLE_FMT_S16P] true 0 0 1152 0 0 0.

(** An output format that needs no file ([AVFMT_NOFILE]), where [avio_open]
    would have failed. *)
Definition nofile_world : World (lib := pcm_library) :=
  mkWorld (lib := pcm_library)
    ["noise_removal"; "in.avi"; "out.mp3"]%string LittleEndian 0 0
    [video_stream; audio_stream AV_SAMPLE_FMT_S16 1 160]
    [mkPacket 1 0 (bytes 320 1)] true 0 mono_s16 true true
    [AV_SAMPLE_FMT_S16P] true 0 0 1152 AVFMT_NOFILE (-2) 0.

(** * Properties *)

Section Composition.

Lemma log_start_l (q : Process) : log start q = q.
Proof. destruct q; reflexivity. Qed.

Lemma log_start_r (p : Process) : log p start = p.
Proof. destruct p; unfold log; simpl; now rewrite !app_nil_r. Qed.

Lemma log_assoc (p q r : Process) : log (log p q) r = log p (log q r).
Proof. unfold log; simpl; now rewrite !app_assoc. Qed.

Lemma appends_ret {A} (a : A) : appends (ret a).
Proof. intros p. unfold ret, flow_of; simpl. now rewrite log_start_r. Qed.

Lemma appends_return {A} (code : Z) : appends (@return_ A code).
Proof. intros p. unfold return_, flow_of; simpl. now rewrite log_start_r. Qed.

Lemma appends_call (c : Call) : appends (call c).
Proof.
  intros p. unfold call, flow_of, log; simpl. now rewrite !app_nil_r.
Qed.

Lemma appends_std_cerr (msg : string) : appends (std_cerr msg).
Proof.
  intros p. unfold std_cerr, flow_of, log; simpl. now rewrite !app_nil_r.
Qed.

Lemma appends_std_cout (msg : string) : appends (std_cout msg).
Proof.
  intros p. unfold std_cout, flow_of, log; simpl. now rewrite !app_nil_r.
Qed.

Lemma appends_bind {A B} (m : Run A) (k : A -> Run B) :
  appends m -> (forall a, appends (k a)) -> appends (bind m k).
Proof.
  intros Hm Hk p. unfold flow_of, bind.
  rewrite (Hm p). unfold flow_of.
  destruct (m start) as [[a | code] q]; simpl.
  - rewrite (Hk a (log p q)), (Hk a q). simpl. now rewrite log_assoc.
  - reflexivity.
Qed.

Lemma flow_of_bind {A B} (m : Run A) (k : A -> Run B) :
  (forall a, appends (k a)) ->
  flow_of (bind m k)
  = match flow_of m with
    | Continue a => flow_of (k a)
    | Return code => Return code
    end.
Proof.
  intros Hk. unfold flow_of, bind.
  destruct (m start) as [[a | code] q]; simpl; [| reflexivity].
  now rewrite (Hk a q).
Qed.

Lemma calls_of_bind {A B} (m : Run A) (k : A -> Run B) :
  (forall a, appends (k a)) ->
  calls_of (bind m k)
  = calls_of m ++ match flow_of m with
                  | Continue a => calls_of (k a)
                  | Return _ => []
                  end.
Proof.
  intros Hk. unfold calls_of, flow_of, bind.
  destruct (m start) as [[a | code] q]; simpl.
  - now rewrite (Hk a q).
  - now rewrite app_nil_r.
Qed.

Lemma cerr_of_bind {A B} (m : Run A) (k : A -> Run B) :
  (forall a, appends (k a)) ->
  cerr_of (bind m k)
  = cerr_of m ++ match flow_of m with
                 | Continue a => cerr_of (k a)
                 | Return _ => []
                 end.
Proof.
  intros Hk. unfold cerr_of, flow_of, bind.
  destruct (m start) as [[a | code] q]; simpl.
  - now rewrite (Hk a q).
  - now rewrite app_nil_r.
Qed.

Lemma cout_of_bind {A B} (m : Run A) (k : A -> Run B) :
  (forall a, appends (k a)) ->
  cout_of (bind m k)
  = cout_of m ++ match flow_of m with
                 | Continue a => cout_of (k a)
                 | Return _ => []
                 end.
Proof.
  intros Hk. unfold cout_of, flow_of, bind.
  destruct (m start) as [[a | code] q]; simpl.
  - now rewrite (Hk a q).
  - now rewrite app_nil_r.
Qed.

End Composition.

Section Loop.

Context {lib : MediaLibrary}.

Lemma steady_ret {A} (a : A) : steady (ret a).
Proof.
  repeat split; try reflexivity.
  - apply appends_ret.
  - now exists a.
Qed.

Lemma steady_call (c : Call) : is_loop_call c = true -> steady (call c).
Proof.
  intros Hc. repeat split; try reflexivity.
  - apply appends_call.
  - now exists tt.
  - unfold calls_of; simpl. now rewrite Hc.
Qed.

Lemma steady_bind {A B} (m : Run A) (k : A -> Run B) :
  steady m -> (forall a, steady (k a)) -> steady (bind m k).
Proof.
  intros (Hm & (a & Ha) & Hce & Hco & Hcl) Hk.
  assert (Hka : forall x, appends (k x)) by (intros x; apply Hk).
  destruct (Hk a) as (_ & (b & Hb) & Hce' & Hco' & Hcl').
  repeat split.
  - now apply appends_bind.
  - exists b. now rewrite flow_of_bind, Ha.
  - now rewrite cerr_of_bind, Ha, Hce, Hce'.
  - now rewrite cout_of_bind, Ha, Hco, Hco'.
  - rewrite calls_of_bind, Ha, forallb_app by assumption.
    now rewrite Hcl, Hcl'.
Qed.

Create HintDb steady.

Ltac steady_step :=
  first
    [ solve [auto with steady]
    | apply steady_ret
    | apply steady_call; reflexivity
    | apply steady_bind; [| intros ?]
    | match goal with
      | |- steady (let '(_, _) := ?x in _) => destruct x
      | |- steady (if ?b then _ else _) => destruct b
      end ].

Lemma steady_write_packets (q : list AVPacket) : steady (write_packets q).
Proof. induction q; cbn [write_packets]; repeat steady_step. Qed.
#[local] Hint Resolve steady_write_packets : steady.

Lemma steady_process_frame bo (frame : AVFrame) (st : Pipeline) :
  steady (process_frame bo frame st).
Proof. unfold process_frame. repeat steady_step. Qed.
#[local] Hint Resolve steady_process_frame : steady.

Lemma steady_receive_frames bo (q : list AVFrame) :
  forall st, steady (receive_frames bo q st).
Proof. induction q; intros st; cbn [receive_frames]; repeat steady_step. Qed.
#[local] Hint Resolve steady_receive_frames : steady.

Lemma steady_handle_packet bo (packet : AVPacket) (st : Pipeline) :
  steady (handle_packet bo packet st).
Proof. unfold handle_packet. repeat steady_step. Qed.
#[local] Hint Resolve steady_handle_packet : steady.

Lemma steady_streaming bo (input : list AVPacket) :
  forall st, steady (streaming bo input st).
Proof. induction input; intros st; cbn [streaming]; repeat steady_step. Qed.
#[local] Hint Resolve steady_streaming : steady.

(** The two inner loops are loops over the receive call: each turn takes the
    oldest ready output, and the turn that finds none ends the loop. *)
Lemma receive_frames_loop bo (c : AVCodecContext DecoderState AVFrame)
    (st : Pipeline) :
  receive_frames bo (ready c) st
  = match avcodec_receive_frame c with
    | (_, Some frame, c') =>
        call (Call_avcodec_receive_frame (Some frame)) ;;
        st' <- process_frame bo frame st ;;
        receive_frames bo (ready c') st'
    | (_, None, _) => call (Call_avcodec_receive_frame None) ;; ret st
    end.
Proof. unfold avcodec_receive_frame, receive. now destruct (ready c). Qed.

Lemma write_packets_loop (c : AVCodecContext EncoderState AVPacket) :
  write_packets (ready c)
  = match avcodec_receive_packet c with
    | (_, Some out_packet, c') =>
        call (Call_avcodec_receive_packet (Some out_packet)) ;;
        call (Call_av_interleaved_write_frame out_packet) ;;
        call Call_av_packet_unref ;;
        write_packets (ready c')
    | (_, None, _) => call (Call_avcodec_receive_packet None)
    end.
Proof. unfold avcodec_receive_packet, receive. now destruct (ready c). Qed.

Lemma receive_code {St Out} (c : AVCodecContext St Out) :
  match receive c with
  | (r, Some _, c') => r = 0 /\ List.length (ready c) = S (List.length (ready c'))
  | (r, None, c') => r = AVERROR_EAGAIN /\ ready c = [] /\ c' = c
  end.
Proof. unfold receive. destruct (ready c); simpl; auto. Qed.

Lemma steady_appends {A} (m : Run A) : steady m -> appends m.
Proof. now intros [H _]. Qed.

Lemma steady_continues {A} (m : Run A) :
  steady m -> exists a, flow_of m = Continue a.
Proof. now intros (_ & H & _). Qed.

Ltac appends_side := intros; apply steady_appends; repeat steady_step.

Ltac run_norm :=
  repeat first
    [ rewrite flow_of_bind by appends_side
    | rewrite calls_of_bind by appends_side
    | rewrite cerr_of_bind by appends_side ];
  simpl.

Lemma store_int16s_length bo (vs plane : list Z) :
  List.length (store_int16s bo vs plane) = List.length plane.
Proof.
  revert plane. induction vs as [| v vs IH]; intros plane; [now destruct plane |].
  destruct plane as [| b0 [| b1 rest]]; try reflexivity.
  cbn [store_int16s]. destruct (bytes_of_int16 bo v). simpl. now rewrite IH.
Qed.

Lemma denoise_frame_only_data0 bo (sp : SpeexPreprocessState) (f : AVFrame) :
  only_data0_changed f (snd (denoise_frame bo sp f)).
Proof.
  unfold denoise_frame.
  destruct (speex_preprocess_run sp (denoiser_input bo f)) as [sp' vs].
  unfold only_data0_changed, with_data0, data0; simpl.
  destruct (data f) as [| plane others]; simpl; repeat split; try reflexivity.
  apply store_int16s_length.
Qed.

Lemma write_packets_trace (q : list AVPacket) :
  frames_received (calls_of (write_packets q)) = []
  /\ denoise_chunks (calls_of (write_packets q)) = []
  /\ encoder_chunks (calls_of (write_packets q)) = []
  /\ written_packets (calls_of (write_packets q)) = q.
Proof.
  induction q as [| pkt q (IH1 & IH2 & IH3 & IH4)]; [now repeat split |].
  cbn [write_packets].
  rewrite !calls_of_bind by appends_side. simpl.
  rewrite IH1, IH2, IH3, IH4. now repeat split.
Qed.

Lemma process_frame_trace bo (f : AVFrame) (st : Pipeline) :
  frames_received (calls_of (process_frame bo f st)) = []
  /\ denoise_chunks (calls_of (process_frame bo f st)) = [f]
  /\ encoder_chunks (calls_of (process_frame bo f st))
     = [snd (denoise_frame bo (preprocess_state st) f)].
Proof.
  unfold process_frame.
  destruct (denoise_frame bo (preprocess_state st) f) as [sp f'].
  destruct (avcodec_send_frame (out_codec_context st) f') as [r enc].
  rewrite !calls_of_bind by appends_side. simpl.
  destruct (r =? 0); simpl.
  - rewrite !calls_of_bind by appends_side. simpl.
    destruct (write_packets_trace (ready enc)) as (H1 & H2 & H3 & _).
    destruct (steady_continues _ (steady_write_packets (ready enc))) as (u & Hu).
    rewrite Hu. unfold frames_received, denoise_chunks, encoder_chunks in *.
    rewrite !flat_map_app, H1, H2, H3. now repeat split.
  - now repeat split.
Qed.

Lemma process_frame_state bo (f : AVFrame) (st : Pipeline) :
  exists st', flow_of (process_frame bo f st) = Continue st'
              /\ codec_context st' = codec_context st
              /\ audio_stream_index st' = audio_stream_index st.
Proof.
  unfold process_frame.
  destruct (denoise_frame bo (preprocess_state st) f) as [sp f'].
  destruct (avcodec_send_frame (out_codec_context st) f') as [r enc].
  rewrite !flow_of_bind by appends_side. simpl.
  destruct (r =? 0); simpl.
  - rewrite !flow_of_bind by appends_side.
    destruct (steady_continues _ (steady_write_packets (ready enc))) as (u & Hu).
    rewrite Hu. eexists; split; [reflexivity | now split].
  - eexists; split; [reflexivity | now split].
Qed.

Lemma balanced_nil : balanced [].
Proof. split; [reflexivity | constructor]. Qed.

Lemma balanced_app (t1 t2 : list Call) :
  balanced t1 -> balanced t2 -> balanced (t1 ++ t2).
Proof.
  intros [H1 H2] [H3 H4]. unfold balanced, denoise_chunks, frames_received,
    encoder_chunks in *.
  rewrite !flat_map_app. split; [now rewrite H1, H3 |].
  now apply Forall2_app.
Qed.

Lemma receive_frames_trace bo (q : list AVFrame) :
  forall st,
    frames_received (calls_of (receive_frames bo q st)) = q
    /\ denoise_chunks (calls_of (receive_frames bo q st)) = q
    /\ Forall2 only_data0_changed q
         (encoder_chunks (calls_of (receive_frames bo q st))).
Proof.
  induction q as [| f q IH]; intros st; cbn [receive_frames];
    rewrite !calls_of_bind by appends_side; simpl.
  - repeat split. constructor.
  - destruct (process_frame_state bo f st) as (st' & Hst & _).
    destruct (process_frame_trace bo f st) as (H1 & H2 & H3).
    destruct (IH st') as (H4 & H5 & H6).
    rewrite Hst. unfold frames_received, denoise_chunks, encoder_chunks in *.
    rewrite !flat_map_app, H1, H2, H3, H4, H5. simpl. repeat split.
    constructor; [apply denoise_frame_only_data0 | exact H6].
Qed.

Lemma receive_frames_state bo (q : list AVFrame) :
  forall st,
    exists st', flow_of (receive_frames bo q st) = Continue st'
                /\ codec_context st' = codec_context st
                /\ audio_stream_index st' = audio_stream_index st.
Proof.
  induction q as [| f q IH]; intros st; cbn [receive_frames];
    rewrite !flow_of_bind by appends_side; simpl.
  - now exists st.
  - destruct (process_frame_state bo f st) as (st' & Hst & Hc & Hi).
    rewrite Hst. destruct (IH st') as (st'' & Hst' & Hc' & Hi').
    exists st''. repeat split; congruence.
Qed.

Lemma handle_packet_audio bo (packet : AVPacket) (st : Pipeline) :
  stream_index packet = audio_stream_index st ->
  (exists st', flow_of (handle_packet bo packet st) = Continue st'
               /\ codec_context st' = context_after (codec_context st) packet
               /\ audio_stream_index st' = audio_stream_index st)
  /\ frames_received (calls_of (handle_packet bo packet st))
     = frames_after (codec_context st) packet
  /\ balanced (calls_of (handle_packet bo packet st)).
Proof.
  intros Hidx. unfold handle_packet, context_after, frames_after, balanced.
  rewrite Hidx, Z.eqb_refl.
  unfold avcodec_send_packet, send.
  destruct (decode (priv_data (codec_context st)) packet) as [d out | e d];
    cbn [send_ret Z.eqb]; run_norm.
  - set (st0 := set_codec_context st _).
    destruct (receive_frames_state bo (ready (codec_context st) ++ out) st0)
      as (st' & Hst & Hc & Hi).
    destruct (receive_frames_trace bo (ready (codec_context st) ++ out) st0)
      as (H1 & H2 & H3).
    rewrite Hst. run_norm. unfold frames_received, denoise_chunks, encoder_chunks in *.
    rewrite !flat_map_app, H1, H2. simpl. rewrite !app_nil_r.
    repeat split.
    + exists st'. now repeat split.
    + exact H3.
  - repeat split; [| constructor].
    eexists. split; [reflexivity |]. now split.
Qed.

Lemma handle_packet_other bo (packet : AVPacket) (st : Pipeline) :
  stream_index packet <> audio_stream_index st ->
  handle_packet bo packet st = (call Call_av_packet_unref ;; ret st).
Proof.
  intros Hidx. unfold handle_packet.
  apply Z.eqb_neq in Hidx. rewrite Hidx. reflexivity.
Qed.

Lemma handle_packet_index bo (packet : AVPacket) (st : Pipeline) :
  exists st', flow_of (handle_packet bo packet st) = Continue st'
              /\ audio_stream_index st' = audio_stream_index st.
Proof.
  destruct (Z.eq_dec (stream_index packet) (audio_stream_index st)) as [E | E].
  - destruct (handle_packet_audio bo packet st E) as ((st' & H1 & _ & H2) & _).
    now exists st'.
  - rewrite (handle_packet_other bo packet st E). now exists st.
Qed.

Lemma handle_packet_balanced bo (packet : AVPacket) (st : Pipeline) :
  balanced (calls_of (handle_packet bo packet st)).
Proof.
  destruct (Z.eq_dec (stream_index packet) (audio_stream_index st)) as [E | E].
  - now destruct (handle_packet_audio bo packet st E) as (_ & _ & H).
  - rewrite (handle_packet_other bo packet st E). split; [reflexivity | constructor].
Qed.

Lemma streaming_cons bo (packet : AVPacket) (rest : list AVPacket) (st : Pipeline) :
  exists st', flow_of (handle_packet bo packet st) = Continue st'
    /\ flow_of (streaming bo (packet :: rest) st) = flow_of (streaming bo rest st')
    /\ calls_of (streaming bo (packet :: rest) st)
       = Call_av_read_frame (Some packet)
         :: calls_of (handle_packet bo packet st)
         ++ calls_of (streaming bo rest st').
Proof.
  destruct (handle_packet_index bo packet st) as (st' & Hst & _).
  exists st'. cbn [streaming]. run_norm. now rewrite Hst.
Qed.

Lemma streaming_balanced bo (input : list AVPacket) :
  forall st, balanced (calls_of (streaming bo input st)).
Proof.
  induction input as [| packet rest IH]; intros st.
  - split; [reflexivity | constructor].
  - destruct (streaming_cons bo packet rest st) as (st' & _ & _ & ->).
    change (balanced ([Call_av_read_frame (Some packet)]
                      ++ calls_of (handle_packet bo packet st)
                      ++ calls_of (streaming bo rest st'))).
    repeat apply balanced_app; auto using handle_packet_balanced.
    split; [reflexivity | constructor].
Qed.

Lemma streaming_index bo (input : list AVPacket) :
  forall st, exists st', flow_of (streaming bo input st) = Continue st'
                         /\ audio_stream_index st' = audio_stream_index st.
Proof.
  induction input as [| packet rest IH]; intros st.
  - exists st. now split.
  - destruct (streaming_cons bo packet rest st) as (st' & Hh & -> & _).
    destruct (handle_packet_index bo packet st) as (st1 & Hh1 & Hi).
    assert (st1 = st') by congruence. subst st1.
    destruct (IH st') as (st'' & H1 & H2). exists st''. split; congruence.
Qed.

(** The frames handed over during the loop, and those the decoder still
    holds when the loop ends, are the audio of the input. *)
Lemma streaming_audio bo (input : list AVPacket) :
  forall st,
    ready (codec_context st) = [] ->
    exists st',
      flow_of (streaming bo input st) = Continue st'
      /\ priv_data (codec_context st')
         = decoder_after (audio_stream_index st)
                         (priv_data (codec_context st)) input
      /\ frames_received (calls_of (streaming bo input st))
         ++ decoder_delayed (priv_data (codec_context st'))
         = audio_of (audio_stream_index st) (priv_data (codec_context st)) input.
Proof.
  induction input as [| packet rest IH]; intros st Hready.
  - exists st. now repeat split.
  - destruct (streaming_cons bo packet rest st) as (st' & Hh & -> & ->).
    cbn [audio_of decoder_after].
    destruct (Z.eq_dec (stream_index packet) (audio_stream_index st)) as [E | E].
    + destruct (handle_packet_audio bo packet st E)
        as ((st1 & Hh1 & Hc & Hi) & Hfr & _).
      assert (st1 = st') by congruence. subst st1.
      apply Z.eqb_eq in E. rewrite E.
      unfold context_after, frames_after in *. rewrite Hready in *.
      destruct (IH st') as (st'' & H1 & H2 & H3).
      { rewrite Hc. now destruct (decode _ _). }
      exists st''. rewrite Hi, Hc in *.
      unfold frames_received in *. cbn [flat_map]. rewrite flat_map_app, Hfr.
      destruct (decode (priv_data (codec_context st)) packet) as [d out | e d];
        simpl in *; repeat split; try assumption.
      * rewrite <- app_assoc. now f_equal.
    + rewrite (handle_packet_other bo packet st E) in Hh.
      assert (st' = st) by (cbv in Hh; congruence). subst st'.
      rewrite (handle_packet_other bo packet st E).
      apply Z.eqb_neq in E. rewrite E.
      destruct (IH st Hready) as (st'' & H1 & H2 & H3).
      exists st''. repeat split; assumption.
Qed.

(** The loop makes no other call after the read that finds no packet. *)
Lemma streaming_last bo (input : list AVPacket) :
  forall st, exists t,
    calls_of (streaming bo input st) = t ++ [Call_av_read_frame None].
Proof.
  induction input as [| packet rest IH]; intros st.
  - now exists [].
  - destruct (streaming_cons bo packet rest st) as (st' & _ & _ & ->).
    destruct (IH st') as (t & ->).
    exists (Call_av_read_frame (Some packet)
            :: calls_of (handle_packet bo packet st) ++ t).
    simpl. now rewrite app_assoc.
Qed.

(** A packet of another stream leaves two calls and nothing else. *)
Lemma streaming_skip bo (packet : AVPacket) (before after : list AVPacket) :
  forall st,
    stream_index packet <> audio_stream_index st ->
    flow_of (streaming bo (before ++ packet :: after) st)
    = flow_of (streaming bo (before ++ after) st)
    /\ exists t1 t2,
         calls_of (streaming bo (before ++ after) st) = t1 ++ t2
         /\ calls_of (streaming bo (before ++ packet :: after) st)
            = t1 ++ [Call_av_read_frame (Some packet); Call_av_packet_unref] ++ t2.
Proof.
  induction before as [| p0 before IH]; intros st Hidx; cbn [app].
  - destruct (streaming_cons bo packet after st) as (st' & Hh & -> & ->).
    rewrite (handle_packet_other bo packet st Hidx) in *.
    assert (st' = st) by (cbv in Hh; congruence). subst st'.
    split; [reflexivity |].
    exists [], (calls_of (streaming bo after st)). now split.
  - destruct (streaming_cons bo p0 (before ++ packet :: after) st)
      as (st' & Hh & -> & ->).
    destruct (streaming_cons bo p0 (before ++ after) st) as (st1 & Hh1 & -> & ->).
    assert (st1 = st') by congruence. subst st1.
    destruct (handle_packet_index bo p0 st) as (st2 & Hh2 & Hi).
    assert (st2 = st') by congruence. subst st2.
    destruct (IH st') as (Hf & t1 & t2 & E1 & E2); [congruence |].
    split; [exact Hf |].
    exists (Call_av_read_frame (Some p0)
            :: calls_of (handle_packet bo p0 st) ++ t1), t2.
    rewrite E1, E2. simpl. now rewrite <- !app_assoc.
Qed.

End Loop.

Section Main.

Context {lib : MediaLibrary}.

Ltac appends_step :=
  first
    [ apply appends_ret
    | apply appends_return
    | apply appends_call
    | apply appends_std_cerr
    | apply appends_std_cout
    | apply steady_appends; apply steady_streaming
    | apply appends_bind; [| intros ?]
    | match goal with
      | |- appends (if ?b then _ else _) => destruct b
      end
    | progress cbv zeta ].

Lemma appends_opening (w : World) : appends (opening w).
Proof. unfold opening. repeat appends_step. Qed.

Lemma appends_closing : appends closing.
Proof. unfold closing. repeat appends_step. Qed.

Lemma closing_outcome :
  flow_of closing = Return 0 /\ calls_of closing = closing_calls
  /\ cerr_of closing = [].
Proof. now repeat split. Qed.

(** Destructs the tests of [opening] in the order in which it makes them. *)
Ltac opening_cases w :=
  destruct (argc w <? 3) eqn:?; simpl; [|
  destruct (avformat_open_input_ret w =? 0) eqn:?; simpl; [
  destruct (avformat_find_stream_info_ret w <? 0) eqn:?; simpl; [|
  destruct (find_audio_stream 0 (streams w) =? -1) eqn:?; simpl; [|
  destruct (decoder_found w) eqn:?; simpl; [
  destruct (decoder_open_ret w <? 0) eqn:?; simpl; [|
  destruct (output_context_allocated w) eqn:?; simpl; [
  destruct (encoder_found w) eqn:?; simpl; [
  destruct (stream_created w) eqn:?; simpl; [
  destruct (encoder_open_ret w <? 0) eqn:?; simpl; [|
  destruct (Z.land (oformat_flags w) AVFMT_NOFILE =? 0) eqn:?; simpl; [
  destruct (avio_open_ret w <? 0) eqn:?; simpl; [|
  destruct (avformat_write_header_ret w <? 0) eqn:?; simpl ] |
  destruct (avformat_write_header_ret w <? 0) eqn:?; simpl ]
  ] | ] | ] | ] ] | ] ] ] | ] ].

(** What [opening] comes to: on success the pipeline it hands to the loop,
    on failure the return code -1 with one message and no output. *)
Lemma opening_outcome (w : World) :
  forallb is_setup_call (calls_of (opening w)) = true
  /\ if opening_succeeds w then
       cerr_of (opening w) = []
       /\ exists st,
           flow_of (opening w) = Continue st
           /\ audio_stream_index st = find_audio_stream 0 (streams w)
           /\ codec_context st
              = avcodec_parameters_to_context (decoder_opened w)
                                              (audio_parameters w)
     else
       flow_of (opening w) = Return (-1)
       /\ existsb is_output (calls_of (opening w)) = false
       /\ existsb is_trailer (calls_of (opening w)) = false
       /\ exists msg, cerr_of (opening w) = [msg].
Proof.
  unfold opening_succeeds, flow_of, calls_of, cerr_of, opening, audio_parameters.
  cbv [bind call std_cerr return_ ret start].
  opening_cases w.
  all: repeat split; try reflexivity; try (eexists; reflexivity).
  all: try (eexists; repeat split; reflexivity).
  all: match goal with
       | H : (avformat_write_header_ret _ <? 0) = true |- _ => now rewrite H
       end.
Qed.

Lemma opening_encoder (w : World) :
  encoder_configurations (calls_of (opening w))
  = if reaches_encoder_open w
    then [(AV_CODEC_ID_MP3, par_sample_rate (audio_parameters w),
           AV_CH_LAYOUT_STEREO, 2, hd AV_SAMPLE_FMT_NONE (encoder_sample_fmts w),
           192000)]
    else [].
Proof.
  unfold reaches_encoder_open, calls_of, opening, audio_parameters.
  cbv [bind call std_cerr return_ ret start].
  opening_cases w; reflexivity.
Qed.

Lemma main_flow (w : World) :
  flow_of (main_body w) = Return (exit_code w)
  /\ calls_of (main_body w) = trace w
  /\ cerr_of (main_body w) = stderr w.
Proof.
  unfold flow_of, calls_of, cerr_of, exit_code, trace, stderr, main.
  destruct (main_body w start) as [[[] | code] p]; simpl; auto.
Qed.

Lemma appends_rest (w : World) (st : Pipeline) :
  appends (streaming (host_byte_order w) (input_packets w) st ;; closing).
Proof. repeat appends_step. Qed.

(** The three phases of a run. *)
Lemma main_outcome (w : World) :
  if opening_succeeds w then
    exit_code w = 0
    /\ stderr w = []
    /\ exists st,
        flow_of (opening w) = Continue st
        /\ audio_stream_index st = find_audio_stream 0 (streams w)
        /\ codec_context st
           = avcodec_parameters_to_context (decoder_opened w) (audio_parameters w)
        /\ trace w
           = calls_of (opening w)
             ++ calls_of (streaming (host_byte_order w) (input_packets w) st)
             ++ closing_calls
  else
    exit_code w = -1
    /\ trace w = calls_of (opening w)
    /\ stderr w = cerr_of (opening w).
Proof.
  destruct (main_flow w) as (Hf & Hc & He).
  destruct (opening_outcome w) as (_ & Ho).
  unfold main_body in *.
  rewrite flow_of_bind in Hf by (intros; apply appends_rest).
  rewrite calls_of_bind in Hc by (intros; apply appends_rest).
  rewrite cerr_of_bind in He by (intros; apply appends_rest).
  destruct (opening_succeeds w).
  - destruct Ho as (Hce & st & Hst & Hi & Hcc).
    rewrite Hst in *.
    pose proof (steady_streaming (host_byte_order w) (input_packets w) st)
      as (_ & (st' & Hst') & Hse & _).
    rewrite flow_of_bind in Hf by (intros; apply appends_closing).
    rewrite calls_of_bind in Hc by (intros; apply appends_closing).
    rewrite cerr_of_bind in He by (intros; apply appends_closing).
    rewrite Hst' in *. rewrite Hce, Hse in He.
    destruct closing_outcome as (H1 & H2 & H3). rewrite H1 in Hf. rewrite H2 in Hc.
    rewrite H3 in He.
    repeat split; [congruence | now rewrite <- He |].
    exists st. repeat split; try assumption. now rewrite <- Hc.
  - destruct Ho as (Hst & _). rewrite Hst in *.
    rewrite app_nil_r in *. repeat split; congruence.
Qed.

(** Calls of one phase do not show up in the readings of another. *)
Lemma setup_calls_readings (t : list Call) :
  forallb is_setup_call t = true ->
  frames_received t = [] /\ denoise_chunks t = [] /\ encoder_chunks t = []
  /\ written_packets t = [] /\ existsb is_drain t = false
  /\ existsb is_trailer t = false /\ existsb is_failed_send t = false.
Proof.
  induction t as [| c t IH]; [now repeat split |].
  cbn [forallb]. intros H. apply andb_prop in H as [Hc Ht].
  destruct (IH Ht) as (H1 & H2 & H3 & H4 & H5 & H6 & H7).
  unfold frames_received, denoise_chunks, encoder_chunks, written_packets in *.
  cbn [flat_map existsb]. rewrite H1, H2, H3, H4, H5, H6, H7.
  destruct c; try discriminate Hc; now repeat split.
Qed.

Lemma loop_calls_readings (t : list Call) :
  forallb is_loop_call t = true ->
  existsb is_drain t = false /\ existsb is_trailer t = false
  /\ encoder_configurations t = [].
Proof.
  induction t as [| c t IH]; [now repeat split |].
  cbn [forallb]. intros H. apply andb_prop in H as [Hc Ht].
  destruct (IH Ht) as (H1 & H2 & H3).
  unfold encoder_configurations in *.
  cbn [flat_map existsb]. rewrite H1, H2, H3.
  destruct c as [ | | | | | | | | | | | | | | [?|] ? | | | [?|] ? | | | | | | | | | | | ];
    try discriminate Hc; now repeat split.
Qed.

End Main.

Section Readings.

Context {lib : MediaLibrary}.

Lemma setup_balanced (t : list Call) :
  forallb is_setup_call t = true -> balanced t.
Proof.
  intros H. destruct (setup_calls_readings t H) as (H1 & H2 & H3 & _).
  unfold balanced. rewrite H1, H2, H3. split; [reflexivity | constructor].
Qed.

Lemma closing_balanced : balanced closing_calls.
Proof. split; [reflexivity | constructor]. Qed.

Lemma trace_balanced (w : World) : balanced (trace w).
Proof.
  pose proof (main_outcome w) as H.
  destruct (opening_outcome w) as (Hs & _).
  destruct (opening_succeeds w).
  - destruct H as (_ & _ & st & _ & _ & _ & ->).
    repeat apply balanced_app;
      auto using setup_balanced, streaming_balanced, closing_balanced.
  - destruct H as (_ & -> & _). now apply setup_balanced.
Qed.

Lemma only_data0_changed_lengths (received sent : list AVFrame) :
  Forall2 only_data0_changed received sent ->
  map nb_samples sent = map nb_samples received.
Proof.
  induction 1 as [| f g fs gs (Hn & _) _ IH]; [reflexivity |].
  simpl. now rewrite Hn, IH.
Qed.

Lemma total_samples_map (fs : list AVFrame) :
  total_samples fs = fold_right Z.add 0 (map nb_samples fs).
Proof. induction fs as [| f fs IH]; simpl; [reflexivity | now rewrite <- IH]. Qed.

Lemma total_samples_app (fs gs : list AVFrame) :
  total_samples (fs ++ gs) = total_samples fs + total_samples gs.
Proof.
  induction fs as [| f fs IH]; simpl; [reflexivity |].
  unfold total_samples in *. simpl. rewrite IH. lia.
Qed.

Lemma Forall_nb_samples (P : Z -> Prop) (fs gs : list AVFrame) :
  map nb_samples fs = map nb_samples gs ->
  Forall (fun f => P (nb_samples f)) fs <-> Forall (fun f => P (nb_samples f)) gs.
Proof.
  intros E.
  rewrite <- (Forall_map nb_samples P fs), <- (Forall_map nb_samples P gs).
  now rewrite E.
Qed.

Lemma trace_no_drain (w : World) : existsb is_drain (trace w) = false.
Proof.
  pose proof (main_outcome w) as H.
  destruct (opening_outcome w) as (Hs & _).
  destruct (setup_calls_readings _ Hs) as (_ & _ & _ & _ & Hd & _).
  destruct (opening_succeeds w).
  - destruct H as (_ & _ & st & _ & _ & _ & ->).
    pose proof (steady_streaming (host_byte_order w) (input_packets w) st)
      as (_ & _ & _ & _ & Hl).
    destruct (loop_calls_readings _ Hl) as (Hd' & _).
    rewrite !existsb_app, Hd, Hd'. reflexivity.
  - destruct H as (_ & -> & _). exact Hd.
Qed.

(** What the loop hands to the encoder, against what the decoder returned
    and what the input holds. *)
Lemma chunks_balanced_lengths (w : World) :
  map nb_samples (encoder_chunks (trace w))
  = map nb_samples (frames_received (trace w))
  /\ (opening_succeeds w = true ->
      frames_received (trace w) ++ decoder_delayed (decoder_at_end w)
      = input_audio w).
Proof.
  destruct (trace_balanced w) as [_ He].
  split; [now apply only_data0_changed_lengths |].
  intros Hok. pose proof (main_outcome w) as H.
  destruct (opening_outcome w) as (Hs & _).
  destruct (setup_calls_readings _ Hs) as (Hfr & _).
  rewrite Hok in H. destruct H as (_ & _ & st & _ & Hi & Hc & ->).
  destruct (streaming_audio (host_byte_order w) (input_packets w) st)
    as (st' & Hst & Hp & Ha); [now rewrite Hc |].
  unfold input_audio, decoder_at_end.
  rewrite Hi, Hc in *. simpl in Hp, Ha. rewrite <- Ha, <- Hp.
  unfold frames_received in *. rewrite !flat_map_app, Hfr. simpl.
  now rewrite app_nil_r.
Qed.

(** A run that gets past the set-up ends with the read that finds no
    packet, the trailer and the releases; no trailer is written before. *)
Lemma end_of_run (w : World) :
  opening_succeeds w = true ->
  exists t, trace w = t ++ Call_av_read_frame None :: closing_calls
            /\ existsb is_trailer t = false.
Proof.
  intros Hok.
  pose proof (main_outcome w) as H. rewrite Hok in H.
  destruct H as (_ & _ & st & _ & _ & _ & ->).
  destruct (opening_outcome w) as (Hs & _).
  destruct (setup_calls_readings _ Hs) as (_ & _ & _ & _ & _ & Ht & _).
  pose proof (steady_streaming (host_byte_order w) (input_packets w) st)
    as (_ & _ & _ & _ & Hl).
  destruct (loop_calls_readings _ Hl) as (_ & Ht' & _).
  destruct (streaming_last (host_byte_order w) (input_packets w) st) as (t' & E).
  rewrite E in *. exists (calls_of (opening w) ++ t'). split.
  - now rewrite <- !app_assoc.
  - rewrite existsb_app in *. apply orb_false_elim in Ht' as [Ht' _].
    now rewrite Ht, Ht'.
Qed.

(** Replacing the packets changes nothing before the loop. *)
Lemma opening_set_input_packets (w : World) (pkts : list AVPacket) :
  opening (set_input_packets w pkts) = opening w
  /\ opening_succeeds (set_input_packets w pkts) = opening_succeeds w.
Proof. split; reflexivity. Qed.

(** The run without one packet of another stream, against the run with
    it. *)
Lemma skipped_packet_trace (w : World) (before after : list AVPacket)
    (packet : AVPacket) :
  input_packets w = before ++ packet :: after ->
  stream_index packet <> find_audio_stream 0 (streams w) ->
  exit_code w = exit_code (set_input_packets w (before ++ after))
  /\ stderr w = stderr (set_input_packets w (before ++ after))
  /\ exists t1 t2,
       trace (set_input_packets w (before ++ after)) = t1 ++ t2
       /\ trace w
          = t1 ++ (if opening_succeeds w
                   then [Call_av_read_frame (Some packet); Call_av_packet_unref]
                   else []) ++ t2.
Proof.
  intros Hin Hidx.
  pose proof (main_outcome w) as H.
  pose proof (main_outcome (set_input_packets w (before ++ after))) as H'.
  destruct (opening_set_input_packets w (before ++ after)) as (Eo & Es).
  rewrite Es, Eo in H'. simpl in H'.
  destruct (opening_succeeds w).
  - destruct H as (Hc & He & st & Hst & Hi & _ & Ht).
    destruct H' as (Hc' & He' & st' & Hst' & _ & _ & Ht').
    assert (st' = st) by congruence. subst st'.
    rewrite Hin in Ht.
    destruct (streaming_skip (host_byte_order w) packet before after st)
      as (_ & t1 & t2 & E1 & E2); [congruence |].
    rewrite E2 in Ht. rewrite E1 in Ht'.
    repeat split; [congruence | congruence |].
    exists (calls_of (opening w) ++ t1), (t2 ++ closing_calls).
    rewrite Ht, Ht'. split; now rewrite <- !app_assoc.
  - destruct H as (Hc & Ht & He). destruct H' as (Hc' & Ht' & He').
    repeat split; [congruence | congruence |].
    exists (trace w), []. rewrite Ht' at 1. rewrite <- Ht.
    split; now rewrite !app_nil_r.
Qed.

(** A packet the decoder refuses: the send call, and on to the next. *)
Lemma refused_packet_trace bo (st : Pipeline) (packet : AVPacket)
    (rest : list AVPacket) (e : positive) (d : DecoderState) :
  stream_index packet = audio_stream_index st ->
  decode (priv_data (codec_context st)) packet = Refused e d ->
  calls_of (streaming bo (packet :: rest) st)
  = [Call_av_read_frame (Some packet);
     Call_avcodec_send_packet (Some packet) (Z.neg e);
     Call_av_packet_unref]
    ++ calls_of (streaming bo rest
                   (set_codec_context st
                      (set_codec (codec_context st) d (ready (codec_context st)))))
  /\ flow_of (streaming bo (packet :: rest) st)
     = flow_of (streaming bo rest
                  (set_codec_context st
                     (set_codec (codec_context st) d (ready (codec_context st))))).
Proof.
  intros Hidx Hd.
  destruct (streaming_cons bo packet rest st) as (st' & Hh & -> & ->).
  revert Hh. unfold handle_packet, avcodec_send_packet, send.
  rewrite Hidx, Z.eqb_refl, Hd. cbn [send_ret Z.eqb].
  intros Hh. cbv in Hh. injection Hh as <-. split; reflexivity.
Qed.

(** A frame the encoder refuses: the denoise call and the send call. *)
Lemma refused_frame_trace bo (st : Pipeline) (frame : AVFrame) (e : positive)
    (s : EncoderState) :
  encode (priv_data (out_codec_context st))
         (snd (denoise_frame bo (preprocess_state st) frame)) = Refused e s ->
  calls_of (process_frame bo frame st)
  = [Call_speex_preprocess_run frame;
     Call_avcodec_send_frame
       (Some (snd (denoise_frame bo (preprocess_state st) frame))) (Z.neg e)]
  /\ flow_of (process_frame bo frame st)
     = Continue (set_denoised st
                   (fst (denoise_frame bo (preprocess_state st) frame))
                   (set_codec (out_codec_context st) s
                              (ready (out_codec_context st)))).
Proof.
  unfold process_frame, avcodec_send_frame, send.
  destruct (denoise_frame bo (preprocess_state st) frame) as [sp f'].
  cbn [fst snd]. intros ->. split; reflexivity.
Qed.

End Readings.

(** * The statements of the specification, settled *)

(** C1 (as amended).  The chunk handed to the denoise stage is each decoded
    frame exactly as the decoder returned it, and the chunk handed to the
    encoder has that frame's sample count: nothing is cut to, or padded to,
    the configured denoise frame length or the encoder's frame length.  The
    specified chunk-length invariant therefore holds in a run exactly when
    every frame the decoder returns already has both lengths. *)
Theorem chunks_are_decoder_frames {lib : MediaLibrary} (w : World) :
  denoise_chunks (trace w) = frames_received (trace w)
  /\ map nb_samples (encoder_chunks (trace w))
     = map nb_samples (frames_received (trace w))
  /\ (chunk_length_invariant w
      <-> Forall (fun f => nb_samples f = denoise_frame_length w
                           /\ nb_samples f = encoder_frame_size w)
                 (frames_received (trace w))).
Proof.
  destruct (trace_balanced w) as [Hd He].
  apply only_data0_changed_lengths in He.
  split; [exact Hd |]. split; [exact He |].
  pose proof (Forall_nb_samples (fun n => n = encoder_frame_size w) _ _ He) as Hiff.
  unfold chunk_length_invariant. rewrite Hd, Hiff.
  rewrite !Forall_forall. split.
  - intros [H1 H2] f Hf. split; auto.
  - intros H. split; intros f Hf; now apply H.
Qed.

(** C1, counterexample.  A decoded frame of 200 samples goes to the denoise
    stage configured for 160 and to the encoder that requires 1152. *)
Lemma long_frame_breaks_chunk_length :
  denoise_frame_length long_frame_world = 160
  /\ encoder_frame_size long_frame_world = 1152
  /\ map nb_samples (denoise_chunks (trace long_frame_world)) = [200]
  /\ map nb_samples (encoder_chunks (trace long_frame_world)) = [200]
  /\ ~ chunk_length_invariant long_frame_world.
Proof.
  assert (Hd : map nb_samples (denoise_chunks (trace long_frame_world)) = [200])
    by (vm_compute; reflexivity).
  repeat split; try (vm_compute; reflexivity).
  intros [H _].
  apply (Forall_map nb_samples (fun n => n = denoise_frame_length long_frame_world)) in H.
  rewrite Hd in H. inversion H as [| ? ? Hn _]. vm_compute in Hn. discriminate Hn.
Qed.

(** C2 (as amended).  In a run that gets past the set-up, the frames handed
    to the encoder have, one by one, the sample counts of the frames the
    decoder returned while packets were read: no padding is added at either
    boundary and nothing is dropped or duplicated in between.  The decoder is
    never drained, so what enters the encoder is the audio of the input less
    the frames the decoder still holds back when the input ends. *)
Theorem encoder_receives_decoded_frames {lib : MediaLibrary} (w : World) :
  opening_succeeds w = true ->
  map nb_samples (encoder_chunks (trace w))
  = map nb_samples (frames_received (trace w))
  /\ frames_received (trace w) ++ decoder_delayed (decoder_at_end w)
     = input_audio w
  /\ total_samples (encoder_chunks (trace w))
     = total_samples (input_audio w)
       - total_samples (decoder_delayed (decoder_at_end w)).
Proof.
  intros Hok.
  destruct (chunks_balanced_lengths w) as (He & Haudio).
  split; [exact He |].
  specialize (Haudio Hok). split; [exact Haudio |].
  rewrite <- Haudio, total_samples_app, !total_samples_map, He. lia.
Qed.

(** C2, witness: the run of [delayed_world]. *)
Lemma encoder_receives_decoded_frames_delayed :
  map nb_samples (encoder_chunks (trace delayed_world))
  = map nb_samples (frames_received (trace delayed_world))
  /\ frames_received (trace delayed_world)
     ++ decoder_delayed (decoder_at_end delayed_world)
     = input_audio delayed_world
  /\ total_samples (encoder_chunks (trace delayed_world))
     = total_samples (input_audio delayed_world)
       - total_samples (decoder_delayed (decoder_at_end delayed_world)).
Proof. apply (encoder_receives_decoded_frames delayed_world). reflexivity. Defined.

(** C2, counterexample.  The input holds 320 samples; the decoder still holds
    the second frame when the packets are used up, and 160 samples reach the
    encoder: fewer than the input holds, where the specification allows only
    more. *)
Lemma delayed_frame_never_reaches_encoder :
  total_samples (input_audio delayed_world) = 320
  /\ total_samples (encoder_chunks (trace delayed_world)) = 160
  /\ ~ sample_conservation delayed_world.
Proof.
  assert (Hin : total_samples (input_audio delayed_world) = 320)
    by (vm_compute; reflexivity).
  assert (Henc : total_samples (encoder_chunks (trace delayed_world)) = 160)
    by (vm_compute; reflexivity).
  repeat split; try assumption.
  intros (pad1 & pad2 & H1 & H2 & H). rewrite Hin, Henc in H.
  unfold padding_below in *. lia.
Qed.

(** C3 (as amended).  When the demuxer reports the end of the input, the
    program goes straight on to write the trailer and release its resources:
    the read that finds no packet is followed at once by
    [av_write_trailer].  No call in the whole run asks the decoder or the
    encoder to release what it still holds, and no trailer is written
    earlier. *)
Theorem end_of_input_goes_to_trailer {lib : MediaLibrary} (w : World) :
  opening_succeeds w = true ->
  existsb is_drain (trace w) = false
  /\ exists t, trace w = t ++ Call_av_read_frame None :: closing_calls
               /\ existsb is_trailer t = false.
Proof.
  intros Hok. split; [apply trace_no_drain | now apply end_of_run].
Qed.

(** C3, witness: the run of [plain_world]. *)
Lemma end_of_input_goes_to_trailer_plain :
  existsb is_drain (trace plain_world) = false
  /\ exists t, trace plain_world = t ++ Call_av_read_frame None :: closing_calls
               /\ existsb is_trailer t = false.
Proof. apply (end_of_input_goes_to_trailer plain_world). reflexivity. Defined.

(** C3, counterexample.  The run of [plain_world] reaches the end of its
    input and writes the trailer, and has drained neither codec before. *)
Lemma trailer_without_draining :
  existsb is_trailer (trace plain_world) = true
  /\ ~ drains_before_trailer (trace plain_world).
Proof.
  split; [vm_compute; reflexivity |].
  intros (before & after & E & (r & Hin) & _).
  assert (H : existsb is_drain (trace plain_world) = true).
  { apply existsb_exists. exists (Call_avcodec_send_packet None r).
    split; [| reflexivity]. rewrite E. apply in_or_app. now left. }
  vm_compute in H. discriminate H.
Qed.


(** Two bytes put together again are the low 16 bits of the word they were
    taken from. *)
Lemma bytes_of_word (w : Z) :
  Z.lor (Z.shiftl (Z.land (Z.shiftr w 8) 255) 8) (Z.land w 255) = Z.land w 65535.
Proof.
  change 255 with (Z.ones 8). change 65535 with (Z.ones 16).
  apply Z.bits_inj'. intros n Hn.
  rewrite Z.lor_spec, !Z.land_spec, Z.shiftl_spec by assumption.
  rewrite (Z.testbit_ones_nonneg 16 n) by lia.
  rewrite (Z.testbit_ones_nonneg 8 n) by lia.
  destruct (Z.ltb_spec n 8) as [H8 | H8].
  - rewrite (Z.testbit_neg_r _ (n - 8)) by lia.
    destruct (Z.ltb_spec n 16); [| lia]. reflexivity.
  - rewrite Z.land_spec, Z.shiftr_spec by lia.
    rewrite (Z.testbit_ones_nonneg 8 (n - 8)) by lia.
    replace (n - 8 + 8) with n by lia.
    destruct (Z.ltb_spec (n - 8) 8), (Z.ltb_spec n 16); try lia;
      now rewrite ?andb_false_r, ?andb_true_r, ?orb_false_r.
Qed.

Lemma to_int16_land (v : Z) : is_int16 v -> to_int16 (Z.land v 65535) = v.
Proof.
  unfold is_int16, INT16_MIN, INT16_MAX, to_int16. intros Hv.
  change 65535 with (Z.ones 16). rewrite Z.land_ones by lia.
  change (2 ^ 16) with 65536.
  destruct (Z.testbit (v mod 65536) 15) eqn:E.
  - apply Z.testbit_true in E; [| lia]. change (2 ^ 15) with 32768 in E.
    Z.div_mod_to_equations. lia.
  - apply Z.testbit_false in E; [| lia]. change (2 ^ 15) with 32768 in E.
    Z.div_mod_to_equations. lia.
Qed.

Lemma int16_of_bytes_of_int16 bo (v : Z) :
  is_int16 v ->
  int16_of_bytes bo (fst (bytes_of_int16 bo v)) (snd (bytes_of_int16 bo v)) = v.
Proof.
  intros Hv. unfold int16_of_bytes, bytes_of_int16.
  destruct bo; cbn [fst snd]; rewrite bytes_of_word; now apply to_int16_land.
Qed.

Lemma load_int16_bytes bo (vs : list Z) :
  Forall is_int16 vs -> load_int16s bo (int16_bytes bo vs) = vs.
Proof.
  induction 1 as [| v vs Hv _ IH]; [reflexivity |].
  unfold int16_bytes in *. cbn [flat_map].
  pose proof (int16_of_bytes_of_int16 bo v Hv) as E.
  destruct (bytes_of_int16 bo v) as [c0 c1]. cbn [app load_int16s].
  simpl in E. now rewrite E, IH.
Qed.

Lemma load_f32_bytes bo (x : float32) :
  load_int16s bo (f32_bytes bo x)
  = match bo with
    | LittleEndian => [f32_low16 x; f32_high16 x]
    | BigEndian => [f32_high16 x; f32_low16 x]
    end.
Proof.
  unfold f32_bytes, f32_low16, f32_high16.
  assert (H24 : Z.shiftr (f32_bits x) 24 = Z.shiftr (Z.shiftr (f32_bits x) 16) 8)
    by (rewrite Z.shiftr_shiftr by lia; reflexivity).
  destruct bo; cbn [rev app load_int16s]; unfold int16_of_bytes;
    now rewrite H24, !bytes_of_word.
Qed.

(** C4 (as amended).  The program converts nothing.  The denoise stage is
    given the bytes of the frame's first plane read as 16-bit integers in the
    host's byte order, and its results are written back the same way.  A
    plane of 16-bit samples is therefore passed through value for value,
    unscaled; a 32-bit floating-point sample is seen as two 16-bit values,
    the two halves of its bit pattern; the sample 2.0 is seen as 0 and 16384
    (in memory order on a little-endian host), not as 32767, and nothing is
    clamped. *)
Theorem planes_are_read_not_converted {lib : MediaLibrary} (bo : ByteOrder)
    (sp : SpeexPreprocessState) (f : AVFrame) (vs : list Z) (x : float32) :
  Forall is_int16 vs ->
  denoise_frame bo sp f
  = (fst (speex_preprocess_run sp (load_int16s bo (data0 f))),
     with_data0 f (store_int16s bo
                     (snd (speex_preprocess_run sp (load_int16s bo (data0 f))))
                     (data0 f)))
  /\ load_int16s bo (int16_bytes bo vs) = vs
  /\ load_int16s bo (f32_bytes bo x)
     = match bo with
       | LittleEndian => [f32_low16 x; f32_high16 x]
       | BigEndian => [f32_high16 x; f32_low16 x]
       end
  /\ load_int16s bo (f32_bytes bo f32_two)
     = match bo with
       | LittleEndian => [0; 16384]
       | BigEndian => [16384; 0]
       end.
Proof.
  intros Hvs. repeat split.
  - unfold denoise_frame, denoiser_input.
    now destruct (speex_preprocess_run sp (load_int16s bo (data0 f))).
  - now apply load_int16_bytes.
  - apply load_f32_bytes.
  - now destruct bo.
Qed.

(** C4, witness: 16-bit samples and the float 2.0 on a little-endian host,
    with the frame and preprocessor of the concrete library. *)
Lemma planes_are_read_not_converted_example :
  load_int16s LittleEndian (int16_bytes LittleEndian [1; -2; 32767; -32768])
  = [1; -2; 32767; -32768]
  /\ load_int16s LittleEndian (f32_bytes LittleEndian f32_two) = [0; 16384].
Proof.
  refine (let H := planes_are_read_not_converted (lib := pcm_library)
                     LittleEndian 160 (mkFrame [] 0 AV_SAMPLE_FMT_FLT 1 0)
                     [1; -2; 32767; -32768] f32_two _ in
          conj (proj1 (proj2 H)) (proj2 (proj2 (proj2 H)))).
  repeat constructor; unfold is_int16, INT16_MIN, INT16_MAX; lia.
Defined.

(** C4, counterexample.  The frame the run of [float_world] hands to the
    denoise stage holds the single sample 2.0; the specified conversion gives
    32767, the denoise stage is given 0 and 16384. *)
Lemma float_two_is_not_saturated :
  (f32_value f32_two == 2)%Q
  /\ spec_float_to_int16 f32_two = INT16_MAX
  /\ exists f, denoise_chunks (trace float_world) = [f]
               /\ format f = AV_SAMPLE_FMT_FLT
               /\ data0 f = flat_map (f32_bytes LittleEndian) [f32_two]
               /\ denoiser_input LittleEndian f = [0; 16384]
               /\ ~ saturating_conversion LittleEndian f [f32_two].
Proof.
  split; [reflexivity |]. split; [reflexivity |].
  eexists. split; [vm_compute; reflexivity |].
  repeat split.
  intros H. specialize (H eq_refl). vm_compute in H. discriminate H.
Qed.

(** C5 (as amended).  The exit code is 0 exactly when every set-up step
    succeeds, and -1 when one of them fails (too few arguments, the input
    cannot be opened or probed, no audio stream, no decoder or it cannot be
    opened, no output context, no MP3 encoder, no output stream, the encoder
    or the output file cannot be opened, the header cannot be written); in
    the failing case no header, packet or trailer has been written.  Nothing
    else enters the exit code: the program has no unsupported-format and no
    unsupported-layout error, whatever the decoded frames are. *)
Theorem exit_code_follows_setup {lib : MediaLibrary} (w : World) :
  if opening_succeeds w
  then exit_code w = 0
  else exit_code w = -1 /\ existsb is_output (trace w) = false.
Proof.
  pose proof (main_outcome w) as H.
  pose proof (opening_outcome w) as (_ & Ho).
  destruct (opening_succeeds w).
  - now destruct H.
  - destruct H as (Hc & -> & _). now destruct Ho as (_ & Hout & _).
Qed.

(** C5, counterexample.  The decoded frames of [surround_world] have six
    channels, which the specified Format Adapter rejects as an unsupported
    layout; the program processes them and exits with 0. *)
Lemma six_channels_exit_zero :
  map channels (frames_received (trace surround_world)) = [6]
  /\ forallb spec_frame_supported (frames_received (trace surround_world)) = false
  /\ exit_code surround_world = 0
  /\ ~ exit_code_rule surround_world.
Proof.
  repeat split; try (vm_compute; reflexivity).
  unfold exit_code_rule.
  replace (opening_succeeds surround_world) with true by reflexivity.
  replace (forallb spec_frame_supported (frames_received (trace surround_world)))
    with false by (vm_compute; reflexivity).
  intros H. apply H. vm_compute. reflexivity.
Qed.

(** C6.  A packet whose stream index is not that of the selected audio
    stream is ignored: the run is the run without that packet, with nothing
    but the read of the packet and its [av_packet_unref] put in at its place.
    The exit code, the messages, the frames given to the encoder and the
    packets written to the output are those of the run without it, and the
    packets after it are processed as before. *)
Theorem other_stream_packet_is_ignored {lib : MediaLibrary} (w : World)
    (before after : list AVPacket) (packet : AVPacket) :
  input_packets w = before ++ packet :: after ->
  stream_index packet <> find_audio_stream 0 (streams w) ->
  exit_code w = exit_code (set_input_packets w (before ++ after))
  /\ stderr w = stderr (set_input_packets w (before ++ after))
  /\ encoder_chunks (trace w)
     = encoder_chunks (trace (set_input_packets w (before ++ after)))
  /\ written_packets (trace w)
     = written_packets (trace (set_input_packets w (before ++ after)))
  /\ exists t1 t2,
       trace (set_input_packets w (before ++ after)) = t1 ++ t2
       /\ trace w
          = t1 ++ (if opening_succeeds w
                   then [Call_av_read_frame (Some packet); Call_av_packet_unref]
                   else []) ++ t2.
Proof.
  intros Hin Hidx.
  destruct (skipped_packet_trace w before after packet Hin Hidx)
    as (Hc & He & t1 & t2 & E' & E).
  repeat split; try assumption.
  - rewrite E, E'. unfold encoder_chunks. rewrite !flat_map_app.
    now destruct (opening_succeeds w).
  - rewrite E, E'. unfold written_packets. rewrite !flat_map_app.
    now destruct (opening_succeeds w).
  - now exists t1, t2.
Qed.

(** C6, witness: the video packet of [mixed_world]. *)
Lemma other_stream_packet_is_ignored_mixed :
  written_packets (trace mixed_world)
  = written_packets
      (trace (set_input_packets mixed_world
                ([mkPacket 1 0 [2; 0; 4; 0]] ++ [mkPacket 1 2 [6; 0; 8; 0]]))).
Proof.
  refine (proj1 (proj2 (proj2 (proj2
    (other_stream_packet_is_ignored mixed_world
       [mkPacket 1 0 [2; 0; 4; 0]] [mkPacket 1 2 [6; 0; 8; 0]]
       (mkPacket 0 0 [9; 9; 9]) _ _))))).
  - reflexivity.
  - vm_compute. discriminate.
Defined.

(** C7 (as amended).  A packet the decoder refuses is skipped without a
    word: it leaves its read, the failed send call and its unref, and the
    loop goes on with the packets after it.  A frame the encoder refuses is
    skipped without a word as well: it leaves the denoise call and the failed
    send call, nothing is written for it, and the loop goes on.  Either holds
    on its own, whatever the other codec does.  The loop prints nothing and
    has no way out of [main]: a run that got past the set-up ends with exit
    code 0 and nothing on the standard error stream, whatever failed in
    between.  There is no conversion step that could fail. *)
Theorem refusals_are_skipped_silently {lib : MediaLibrary} (w : World)
    (bo : ByteOrder) (st : Pipeline) (packet : AVPacket) (rest : list AVPacket)
    (frame : AVFrame) :
  (opening_succeeds w = true -> exit_code w = 0 /\ stderr w = [])
  /\ ((exists st', flow_of (streaming bo (packet :: rest) st) = Continue st')
      /\ cerr_of (streaming bo (packet :: rest) st) = [])
  /\ (forall (e : positive) (d : DecoderState),
        stream_index packet = audio_stream_index st ->
        decode (priv_data (codec_context st)) packet = Refused e d ->
        calls_of (streaming bo (packet :: rest) st)
        = [Call_av_read_frame (Some packet);
           Call_avcodec_send_packet (Some packet) (Z.neg e);
           Call_av_packet_unref]
          ++ calls_of (streaming bo rest
                         (set_codec_context st
                            (set_codec (codec_context st) d
                                       (ready (codec_context st)))))
        /\ flow_of (streaming bo (packet :: rest) st)
           = flow_of (streaming bo rest
                        (set_codec_context st
                           (set_codec (codec_context st) d
                                      (ready (codec_context st))))))
  /\ (forall (e : positive) (s : EncoderState),
        encode (priv_data (out_codec_context st))
               (snd (denoise_frame bo (preprocess_state st) frame))
        = Refused e s ->
        calls_of (process_frame bo frame st)
        = [Call_speex_preprocess_run frame;
           Call_avcodec_send_frame
             (Some (snd (denoise_frame bo (preprocess_state st) frame)))
             (Z.neg e)]
        /\ written_packets (calls_of (process_frame bo frame st)) = []
        /\ flow_of (process_frame bo frame st)
           = Continue (set_denoised st
                         (fst (denoise_frame bo (preprocess_state st) frame))
                         (set_codec (out_codec_context st) s
                                    (ready (out_codec_context st))))).
Proof.
  split; [| split; [| split]].
  - intros Hok. pose proof (main_outcome w) as H. rewrite Hok in H.
    destruct H as (Hc & Herr & _). now split.
  - pose proof (steady_streaming bo (packet :: rest) st) as (_ & Hf & Hc & _).
    now split.
  - intros e d Hidx Hd. now apply refused_packet_trace.
  - intros e s He.
    destruct (refused_frame_trace bo st frame e s He) as (Hc & Hf).
    split; [exact Hc |]. split; [now rewrite Hc | exact Hf].
Qed.

(** [pcm_pipeline] is the pipeline [refused_world] enters the loop with. *)
Lemma refused_world_pipeline :
  flow_of (opening refused_world) = Continue pcm_pipeline.
Proof. reflexivity. Qed.

(** C7, witness: on the pipeline of [refused_world], the empty packet, which
    the decoder refuses, and the frame of 2000 samples, which the encoder
    refuses; each part is used on its own. *)
Lemma refusals_are_skipped_silently_example :
  (exit_code refused_world = 0 /\ stderr refused_world = [])
  /\ calls_of (streaming LittleEndian [mkPacket 1 0 []] pcm_pipeline)
     = [Call_av_read_frame (Some (mkPacket 1 0 []));
        Call_avcodec_send_packet (Some (mkPacket 1 0 []))
                                 (Z.neg AVERROR_INVALIDDATA);
        Call_av_packet_unref]
       ++ calls_of (streaming LittleEndian []
                      (set_codec_context pcm_pipeline
                         (set_codec (codec_context pcm_pipeline) mono_s16
                                    (ready (codec_context pcm_pipeline)))))
  /\ calls_of (process_frame LittleEndian
                 (mkFrame [bytes 4000 1] 2000 AV_SAMPLE_FMT_S16 1 1) pcm_pipeline)
     = [Call_speex_preprocess_run
          (mkFrame [bytes 4000 1] 2000 AV_SAMPLE_FMT_S16 1 1);
        Call_avcodec_send_frame
          (Some (snd (denoise_frame LittleEndian (preprocess_state pcm_pipeline)
                        (mkFrame [bytes 4000 1] 2000 AV_SAMPLE_FMT_S16 1 1))))
          (Z.neg EINVAL)].
Proof.
  pose (H := refusals_are_skipped_silently refused_world LittleEndian
               pcm_pipeline (mkPacket 1 0 []) []
               (mkFrame [bytes 4000 1] 2000 AV_SAMPLE_FMT_S16 1 1)).
  split; [| split].
  - exact (proj1 H eq_refl).
  - refine (proj1 (proj1 (proj2 (proj2 H)) AVERROR_INVALIDDATA mono_s16 _ _));
      reflexivity.
  - refine (proj1 (proj2 (proj2 (proj2 H)) EINVAL 0 _)).
    vm_compute. reflexivity.
Defined.

(** C7, counterexample.  In [refused_world] the decoder refuses a packet and
    the encoder refuses a frame; nothing is written to the standard error
    stream. *)
Lemma refusals_leave_no_message :
  existsb is_failed_send (trace refused_world) = true
  /\ stderr refused_world = []
  /\ exit_code refused_world = 0
  /\ ~ failures_logged refused_world.
Proof.
  repeat split; try (vm_compute; reflexivity).
  intros H. apply H; vm_compute; reflexivity.
Qed.

(** C8.  Once output writing has begun, that is, once a call has put bytes
    into the output file, the program has no fatal exit left: every such run
    goes on to the trailer-writing step, executes it exactly once, after
    every other write, releases its resources and returns 0.  So on whatever
    path the program leaves after output was begun, the trailer has been
    written; no later call touches the file, which is left in place. *)
Theorem trailer_follows_output {lib : MediaLibrary} (w : World) :
  existsb is_output (trace w) = true ->
  existsb is_trailer (trace w) = true
  /\ exit_code w = 0
  /\ exists t, trace w = t ++ closing_calls
               /\ existsb is_trailer t = false
               /\ existsb is_output (tl closing_calls) = false.
Proof.
  intros Hout.
  pose proof (main_outcome w) as Hm.
  pose proof (opening_outcome w) as (_ & Ho).
  pose proof (end_of_run w) as He.
  destruct (opening_succeeds w).
  - destruct (He eq_refl) as (t & E & Ht).
    assert (E' : trace w = (t ++ [Call_av_read_frame None]) ++ closing_calls)
      by (now rewrite <- app_assoc).
    split; [| split; [now destruct Hm |]].
    + rewrite E', existsb_app. apply orb_true_r.
    + exists (t ++ [Call_av_read_frame None]). split; [exact E' |].
      split; [| reflexivity]. rewrite existsb_app, Ht. reflexivity.
  - destruct Hm as (_ & Et & _). destruct Ho as (_ & Hno & _).
    rewrite Et, Hno in Hout. discriminate Hout.
Qed.

(** C8, witness: the run of [plain_world] writes the header and a packet. *)
Lemma trailer_follows_output_plain :
  existsb is_trailer (trace plain_world) = true
  /\ exit_code plain_world = 0
  /\ exists t, trace plain_world = t ++ closing_calls
               /\ existsb is_trailer t = false
               /\ existsb is_output (tl closing_calls) = false.
Proof. apply (trailer_follows_output plain_world). vm_compute. reflexivity. Defined.




(** C10.  Whenever the program gets as far as opening the encoder, it opens
    it once, as MP3, stereo (two channels), 192000 bits per second, at the
    sample rate of the selected input stream and in the first sample format
    the encoder lists; the input's channel layout, channel count and bit rate
    enter nowhere.  A run that stops earlier opens no encoder. *)
Theorem encoder_configuration_is_fixed {lib : MediaLibrary} (w : World) :
  encoder_configurations (trace w)
  = if reaches_encoder_open w
    then [(AV_CODEC_ID_MP3, par_sample_rate (audio_parameters w),
           AV_CH_LAYOUT_STEREO, 2,
           hd AV_SAMPLE_FMT_NONE (encoder_sample_fmts w), 192000)]
    else [].
Proof.
  rewrite <- opening_encoder.
  pose proof (main_outcome w) as H.
  destruct (opening_succeeds w).
  - destruct H as (_ & _ & st & _ & _ & _ & ->).
    pose proof (steady_streaming (host_byte_order w) (input_packets w) st)
      as (_ & _ & _ & _ & Hl).
    destruct (loop_calls_readings _ Hl) as (_ & _ & He).
    unfold encoder_configurations in *. rewrite !flat_map_app, He.
    simpl. now rewrite app_nil_r.
  - now destruct H as (_ & -> & _).
Qed.

(** * More of the program *)

Section Coverage.

Context {lib : MediaLibrary}.

Ltac loop_step :=
  first
    [ apply steady_write_packets
    | apply steady_process_frame
    | apply steady_receive_frames
    | apply steady_handle_packet
    | apply steady_streaming
    | apply steady_ret
    | apply steady_call; reflexivity
    | apply steady_bind; [| intros ?]
    | match goal with
      | |- steady (let '(_, _) := ?x in _) => destruct x
      | |- steady (if ?b then _ else _) => destruct b
      end ].

Ltac loop_side := intros; apply steady_appends; repeat loop_step.

Ltac loop_norm :=
  repeat first
    [ rewrite flow_of_bind by loop_side
    | rewrite calls_of_bind by loop_side
    | rewrite cerr_of_bind by loop_side
    | rewrite cout_of_bind by loop_side ];
  simpl.

Lemma confined_ret {A} (P : Call -> bool) (a : A) : confined P (ret a).
Proof. repeat split; [apply appends_ret | now exists a]. Qed.

Lemma confined_call (P : Call -> bool) (c : Call) :
  P c = true -> confined P (call c).
Proof.
  intros Hc. repeat split; [apply appends_call | now exists tt |].
  unfold calls_of; simpl. now rewrite Hc.
Qed.

Lemma confined_bind {A B} (P : Call -> bool) (m : Run A) (k : A -> Run B) :
  confined P m -> (forall a, confined P (k a)) -> confined P (bind m k).
Proof.
  intros (Hm & (a & Ha) & Hcl) Hk.
  assert (Hka : forall x, appends (k x)) by (intros x; apply Hk).
  destruct (Hk a) as (_ & (b & Hb) & Hcl').
  repeat split.
  - now apply appends_bind.
  - exists b. now rewrite flow_of_bind, Ha.
  - rewrite calls_of_bind, Ha, forallb_app by assumption.
    now rewrite Hcl, Hcl'.
Qed.

Ltac confined_step :=
  first
    [ assumption
    | apply confined_ret
    | apply confined_call; reflexivity
    | apply confined_bind; [| intros ?]
    | match goal with
      | |- confined _ (let '(_, _) := ?x in _) => destruct x
      | |- confined _ (if ?b then _ else _) => destruct b
      end ].

Lemma frame_calls_write_packets (q : list AVPacket) :
  confined is_frame_call (write_packets q).
Proof. induction q; cbn [write_packets]; repeat confined_step. Qed.

Lemma frame_calls_process_frame bo (f : AVFrame) (st : Pipeline) :
  confined is_frame_call (process_frame bo f st).
Proof.
  unfold process_frame.
  destruct (denoise_frame bo (preprocess_state st) f) as [sp f'].
  destruct (avcodec_send_frame (out_codec_context st) f') as [r enc].
  apply confined_bind; [now apply confined_call | intros _].
  apply confined_bind; [now apply confined_call | intros _].
  destruct (r =? 0); [| apply confined_ret].
  apply confined_bind; [apply frame_calls_write_packets | intros _].
  apply confined_ret.
Qed.

Lemma frame_calls_receive_frames bo (q : list AVFrame) :
  forall st, confined is_frame_call (receive_frames bo q st).
Proof.
  induction q as [| f q IH]; intros st; cbn [receive_frames].
  - apply confined_bind; [now apply confined_call | intros _; apply confined_ret].
  - apply confined_bind; [now apply confined_call | intros _].
    apply confined_bind; [apply frame_calls_process_frame | intros st'; apply IH].
Qed.

(** What frame calls leave in the readings of packets. *)
Lemma frame_calls_readings (t : list Call) :
  forallb is_frame_call t = true ->
  packets_read t = [] /\ packets_sent t = [].
Proof.
  induction t as [| c t IH]; [now split |].
  cbn [forallb]. intros H. apply andb_prop in H as [Hc Ht].
  destruct (IH Ht) as (H1 & H2).
  unfold packets_read, packets_sent in *.
  cbn [flat_map]. rewrite H1, H2.
  destruct c; try discriminate Hc; now split.
Qed.

(** The packets [write_packets] writes, and their releases. *)
Lemma write_packets_written (q : list AVPacket) :
  written_packets (calls_of (write_packets q)) = q
  /\ List.length (filter is_unref (calls_of (write_packets q))) = List.length q.
Proof.
  induction q as [| pkt q (IH1 & IH2)]; [now split |].
  cbn [write_packets]. loop_norm. rewrite IH1, IH2. now split.
Qed.

Lemma denoise_all_app bo sp (fs gs : list AVFrame) :
  denoise_all bo sp (fs ++ gs)
  = denoise_all bo sp fs ++ denoise_all bo (speex_after bo sp fs) gs.
Proof.
  revert sp. induction fs as [| f fs IH]; intros sp; [reflexivity |].
  cbn [app denoise_all speex_after]. now rewrite IH.
Qed.

Lemma speex_after_app bo sp (fs gs : list AVFrame) :
  speex_after bo sp (fs ++ gs) = speex_after bo (speex_after bo sp fs) gs.
Proof.
  revert sp. induction fs as [| f fs IH]; intros sp; [reflexivity |].
  cbn [app speex_after]. now rewrite IH.
Qed.

Lemma denoise_all_length bo sp (fs : list AVFrame) :
  List.length (denoise_all bo sp fs) = List.length fs.
Proof.
  revert sp. induction fs as [| f fs IH]; intros sp; [reflexivity |].
  cbn [denoise_all List.length]. now rewrite IH.
Qed.

Lemma encoder_output_app (s : EncoderState) (fs gs : list AVFrame) :
  encoder_output s (fs ++ gs)
  = encoder_output s fs ++ encoder_output (encoder_after s fs) gs.
Proof.
  revert s. induction fs as [| f fs IH]; intros s; [reflexivity |].
  cbn [app encoder_output encoder_after].
  destruct (encode s f) as [s' out | e s']; rewrite IH; [| reflexivity].
  now rewrite app_assoc.
Qed.

Lemma encoder_after_app (s : EncoderState) (fs gs : list AVFrame) :
  encoder_after s (fs ++ gs) = encoder_after (encoder_after s fs) gs.
Proof.
  revert s. induction fs as [| f fs IH]; intros s; [reflexivity |].
  cbn [app encoder_after]. destruct (encode s f); now rewrite IH.
Qed.

Lemma loop_effect_app bo (st st1 st2 : Pipeline) (t1 t2 : list Call) :
  loop_effect bo st st1 t1 -> loop_effect bo st1 st2 t2 ->
  loop_effect bo st st2 (t1 ++ t2).
Proof.
  intros (Hi & Hc & Ho & He & Hs & Hw) (Hi' & Hc' & Ho' & He' & Hs' & Hw').
  unfold loop_effect, encoder_chunks, frames_received, written_packets in *.
  rewrite !flat_map_app.
  split; [congruence |]. split; [congruence |]. split; [congruence |].
  split; [rewrite denoise_all_app, He, He'; now rewrite Hs |].
  split; [rewrite speex_after_app; congruence |].
  intros Hr. destruct (Hw Hr) as (Hr1 & Hw1 & Hp1).
  destruct (Hw' Hr1) as (Hr2 & Hw2 & Hp2).
  split; [exact Hr2 |]. split.
  - rewrite encoder_output_app, Hw1, Hw2. now rewrite Hp1.
  - rewrite encoder_after_app. congruence.
Qed.

Lemma loop_effect_same bo (st st' : Pipeline) (t : list Call) :
  audio_stream_index st' = audio_stream_index st ->
  configuration (codec_context st') = configuration (codec_context st) ->
  out_codec_context st' = out_codec_context st ->
  preprocess_state st' = preprocess_state st ->
  frames_received t = [] -> encoder_chunks t = [] -> written_packets t = [] ->
  loop_effect bo st st' t.
Proof.
  intros Hi Hc Ho Hs Hf He Hw. unfold loop_effect.
  rewrite Hf, He, Hw, Ho. now repeat split.
Qed.

(** One turn of the inner loop: the receive call that yields [f], and the
    processing of [f]. *)
Lemma frame_turn_effect bo (f : AVFrame) (st : Pipeline) :
  exists st',
    flow_of (process_frame bo f st) = Continue st'
    /\ codec_context st' = codec_context st
    /\ loop_effect bo st st'
         (Call_avcodec_receive_frame (Some f) :: calls_of (process_frame bo f st))
    /\ List.length (filter is_unref (calls_of (process_frame bo f st)))
       = List.length (written_packets (calls_of (process_frame bo f st))).
Proof.
  unfold process_frame, avcodec_send_frame, send, loop_effect.
  destruct (denoise_frame bo (preprocess_state st) f) as [sp f'] eqn:Ed.
  destruct (encode (priv_data (out_codec_context st)) f') as [s out | e s] eqn:Ee;
    cbn [send_ret Z.eqb]; loop_norm.
  - destruct (write_packets_written (ready (out_codec_context st) ++ out))
      as (Hw & Hu).
    destruct (write_packets_trace (ready (out_codec_context st) ++ out))
      as (H1 & H2 & H3 & _).
    pose proof (steady_continues _
                  (steady_write_packets (ready (out_codec_context st) ++ out)))
      as (u & Hu').
    rewrite Hu'. loop_norm.
    eexists. split; [reflexivity |]. split; [reflexivity |].
    unfold frames_received, encoder_chunks, written_packets in *.
    rewrite !flat_map_app, H1, H3, Hw, filter_app, !app_nil_r, Hu.
    simpl. rewrite Ed, Ee. simpl.
    split; [| reflexivity]. do 5 (split; [reflexivity |]).
    intros ->. now rewrite app_nil_r.
  - eexists. split; [reflexivity |]. split; [reflexivity |].
    simpl. rewrite Ed, Ee. simpl. repeat split; auto.
Qed.

Lemma loop_effect_quiet bo (st : Pipeline) (c : Call) :
  frames_received [c] = [] -> encoder_chunks [c] = [] -> written_packets [c] = [] ->
  loop_effect bo st st [c].
Proof. intros. now apply loop_effect_same. Qed.

Lemma receive_frames_effect bo (q : list AVFrame) :
  forall st, exists st',
    flow_of (receive_frames bo q st) = Continue st'
    /\ codec_context st' = codec_context st
    /\ loop_effect bo st st' (calls_of (receive_frames bo q st))
    /\ List.length (filter is_unref (calls_of (receive_frames bo q st)))
       = List.length (written_packets (calls_of (receive_frames bo q st))).
Proof.
  induction q as [| f q IH]; intros st; cbn [receive_frames]; loop_norm.
  - exists st. split; [reflexivity |]. split; [reflexivity |].
    split; [now apply loop_effect_quiet | reflexivity].
  - destruct (frame_turn_effect bo f st) as (st1 & Hf & Hc & He & Hu).
    destruct (IH st1) as (st2 & Hf' & Hc' & He' & Hu').
    rewrite Hf. exists st2. split; [exact Hf' |]. split; [congruence |]. split.
    + change (loop_effect bo st st2
                ((Call_avcodec_receive_frame (Some f)
                  :: calls_of (process_frame bo f st))
                 ++ calls_of (receive_frames bo q st1))).
      now apply loop_effect_app with st1.
    + unfold written_packets in *. rewrite filter_app, flat_map_app, !length_app.
      now rewrite Hu, Hu'.
Qed.

Lemma handle_packet_effect bo (packet : AVPacket) (st : Pipeline) :
  exists st',
    flow_of (handle_packet bo packet st) = Continue st'
    /\ loop_effect bo st st' (calls_of (handle_packet bo packet st))
    /\ (ready (codec_context st) = [] -> ready (codec_context st') = [])
    /\ packets_read (calls_of (handle_packet bo packet st)) = []
    /\ packets_sent (calls_of (handle_packet bo packet st))
       = (if stream_index packet =? audio_stream_index st then [packet] else [])
    /\ List.length (filter is_unref (calls_of (handle_packet bo packet st)))
       = S (List.length (written_packets (calls_of (handle_packet bo packet st)))).
Proof.
  unfold handle_packet, avcodec_send_packet, send.
  destruct (stream_index packet =? audio_stream_index st).
  - destruct (decode (priv_data (codec_context st)) packet) as [d out | e d];
      cbn [send_ret Z.eqb]; loop_norm.
    + set (st0 := set_codec_context st _).
      destruct (receive_frames_effect bo (ready (codec_context st) ++ out) st0)
        as (st' & Hf & Hc & He & Hu).
      destruct (frame_calls_receive_frames bo (ready (codec_context st) ++ out) st0)
        as (_ & _ & Hfc).
      destruct (frame_calls_readings _ Hfc) as (Hr & Hs).
      rewrite Hf. loop_norm. exists st'. split; [reflexivity |]. split.
      * change (loop_effect bo st st'
                  ([Call_avcodec_send_packet (Some packet) 0]
                   ++ calls_of (receive_frames bo (ready (codec_context st) ++ out) st0)
                   ++ [Call_av_packet_unref])).
        apply loop_effect_app with st0;
          [now apply loop_effect_same |].
        apply loop_effect_app with st'; [exact He |].
        now apply loop_effect_quiet.
      * unfold packets_read, packets_sent, written_packets in *.
        rewrite !flat_map_app, !filter_app, !length_app, Hr, Hs, Hu, Hc.
        simpl. repeat split; try reflexivity. lia.
    + eexists. split; [reflexivity |]. split.
      * change (loop_effect bo st
                  (set_codec_context st
                     (set_codec (codec_context st) d (ready (codec_context st))))
                  ([Call_avcodec_send_packet (Some packet) (Z.neg e)]
                   ++ [Call_av_packet_unref])).
        apply loop_effect_app
          with (set_codec_context st
                  (set_codec (codec_context st) d (ready (codec_context st))));
          now apply loop_effect_same.
      * now repeat split.
  - loop_norm. exists st. split; [reflexivity |]. split.
    + now apply loop_effect_quiet.
    + now repeat split.
Qed.

Lemma streaming_effect bo (input : list AVPacket) :
  forall st, exists st',
    flow_of (streaming bo input st) = Continue st'
    /\ loop_effect bo st st' (calls_of (streaming bo input st))
    /\ (ready (codec_context st) = [] -> ready (codec_context st') = [])
    /\ packets_read (calls_of (streaming bo input st)) = input
    /\ packets_sent (calls_of (streaming bo input st))
       = filter (fun p => stream_index p =? audio_stream_index st) input
    /\ List.length (filter is_unref (calls_of (streaming bo input st)))
       = (List.length input
          + List.length (written_packets (calls_of (streaming bo input st))))%nat.
Proof.
  induction input as [| packet rest IH]; intros st.
  - exists st. split; [reflexivity |]. split; [now apply loop_effect_quiet |].
    now repeat split.
  - destruct (streaming_cons bo packet rest st) as (st1 & Hh & -> & ->).
    destruct (handle_packet_effect bo packet st)
      as (st1' & Hh' & He & Hr & Hpr & Hps & Hu).
    assert (st1' = st1) by congruence. subst st1'.
    destruct (IH st1) as (st2 & Hf & He' & Hr' & Hpr' & Hps' & Hu').
    assert (Hidx : audio_stream_index st1 = audio_stream_index st) by apply He.
    exists st2. split; [exact Hf |]. split.
    + change (loop_effect bo st st2
                ([Call_av_read_frame (Some packet)]
                 ++ calls_of (handle_packet bo packet st)
                 ++ calls_of (streaming bo rest st1))).
      apply loop_effect_app with st; [now apply loop_effect_quiet |].
      now apply loop_effect_app with st1.
    + split; [auto |].
      unfold packets_read, packets_sent, written_packets in *.
      rewrite Hidx in Hps'. cbn [flat_map filter app is_unref].
      rewrite !flat_map_app, !filter_app, !length_app, Hpr, Hps, Hpr', Hps', Hu, Hu'.
      simpl.
      destruct (stream_index packet =? audio_stream_index st);
        repeat split; try reflexivity; lia.
Qed.

(** Destructs the tests of [opening] in the order in which it makes them. *)
Ltac setup_cases w :=
  destruct (argc w <? 3) eqn:?; simpl; [|
  destruct (avformat_open_input_ret w =? 0) eqn:?; simpl; [
  destruct (avformat_find_stream_info_ret w <? 0) eqn:?; simpl; [|
  destruct (find_audio_stream 0 (streams w) =? -1) eqn:?; simpl; [|
  destruct (decoder_found w) eqn:?; simpl; [
  destruct (decoder_open_ret w <? 0) eqn:?; simpl; [|
  destruct (output_context_allocated w) eqn:?; simpl; [
  destruct (encoder_found w) eqn:?; simpl; [
  destruct (stream_created w) eqn:?; simpl; [
  destruct (encoder_open_ret w <? 0) eqn:?; simpl; [|
  destruct (Z.land (oformat_flags w) AVFMT_NOFILE =? 0) eqn:?; simpl; [
  destruct (avio_open_ret w <? 0) eqn:?; simpl; [|
  destruct (avformat_write_header_ret w <? 0) eqn:?; simpl ] |
  destruct (avformat_write_header_ret w <? 0) eqn:?; simpl ]
  ] | ] | ] | ] ] | ] ] ] | ] ].

(** The pipeline the set-up hands to the loop. *)
Lemma opening_pipeline (w : World) :
  opening_succeeds w = true ->
  flow_of (opening w) = Continue (initial_pipeline w).
Proof.
  unfold opening_succeeds, flow_of, opening, initial_pipeline, audio_parameters.
  cbv [bind call std_cerr return_ ret start].
  setup_cases w; intros H; try discriminate H.
  all: destruct (Z.land (oformat_flags w) AVFMT_GLOBALHEADER =? 0); reflexivity.
Qed.

(** What the set-up leaves in the further readings. *)
Lemma opening_readings (w : World) :
  cout_of (opening w) = []
  /\ filter is_speex_setup (calls_of (opening w))
     = (if reaches_speex_init w
        then [Call_speex_preprocess_state_init
                (par_frame_size (audio_parameters w))
                (par_sample_rate (audio_parameters w));
              Call_speex_preprocess_ctl SPEEX_PREPROCESS_SET_DENOISE 1;
              Call_speex_preprocess_ctl SPEEX_PREPROCESS_SET_NOISE_SUPPRESS (-10)]
        else [])
  /\ filter is_avio_open (calls_of (opening w))
     = (if reaches_output_open w
           && (Z.land (oformat_flags w) AVFMT_NOFILE =? 0)
        then [Call_avio_open (arg w 2) (avio_open_ret w)]
        else [])
  /\ filter is_output (calls_of (opening w))
     = (if opening_succeeds w
        then [Call_avformat_write_header (avformat_write_header_ret w)]
        else []).
Proof.
  unfold opening_succeeds, reaches_speex_init, reaches_output_open,
    reaches_encoder_open, calls_of, cout_of, opening, audio_parameters.
  cbv [bind call std_cerr return_ ret start].
  setup_cases w; repeat split; try reflexivity.
  all: match goal with
       | H : (avformat_write_header_ret _ <? 0) = _ |- _ => now rewrite H
       end.
Qed.

Lemma setup_calls_further (t : list Call) :
  forallb is_setup_call t = true ->
  packets_read t = [] /\ packets_sent t = []
  /\ filter is_unref t = [] /\ filter is_release t = [].
Proof.
  induction t as [| c t IH]; [now repeat split |].
  cbn [forallb]. intros H. apply andb_prop in H as [Hc Ht].
  destruct (IH Ht) as (H1 & H2 & H3 & H4).
  unfold packets_read, packets_sent in *.
  cbn [flat_map filter]. rewrite H1, H2.
  destruct c; try discriminate Hc; simpl; now rewrite ?H3, ?H4.
Qed.

Lemma loop_calls_further (t : list Call) :
  forallb is_loop_call t = true ->
  filter is_speex_setup t = [] /\ filter is_avio_open t = []
  /\ filter is_release t = []
  /\ filter is_output t = map Call_av_interleaved_write_frame (written_packets t).
Proof.
  induction t as [| c t IH]; [now repeat split |].
  cbn [forallb]. intros H. apply andb_prop in H as [Hc Ht].
  destruct (IH Ht) as (H1 & H2 & H3 & H4).
  unfold written_packets in *.
  cbn [flat_map filter].
  destruct c; try discriminate Hc; simpl; rewrite ?H1, ?H2, ?H3, ?H4;
    now repeat split.
Qed.

(** A run that gets past the set-up: the set-up, the loop from the initial
    pipeline, the closing calls. *)
Lemma run_shape (w : World) :
  opening_succeeds w = true ->
  trace w
  = calls_of (opening w)
    ++ calls_of (streaming (host_byte_order w) (input_packets w)
                           (initial_pipeline w))
    ++ closing_calls.
Proof.
  intros Hok. pose proof (main_outcome w) as H. rewrite Hok in H.
  destruct H as (_ & _ & st & Hst & _ & _ & Ht).
  rewrite (opening_pipeline w Hok) in Hst. now injection Hst as <-.
Qed.

Lemma main_cout (w : World) : cout_of (main_body w) = stdout w.
Proof.
  unfold cout_of, stdout, main.
  destruct (main_body w start) as [[[] | code] p]; reflexivity.
Qed.

Lemma find_audio_stream_from (ss : list AVCodecParameters) :
  forall i, 0 <= i ->
    (find_audio_stream i ss = -1
     /\ Forall (fun s => is_audio (codec_type s) = false) ss)
    \/ (i <= find_audio_stream i ss < i + Z.of_nat (List.length ss)
        /\ is_audio (codec_type
                       (nth (Z.to_nat (find_audio_stream i ss - i)) ss
                            default_parameters)) = true
        /\ Forall (fun s => is_audio (codec_type s) = false)
                  (firstn (Z.to_nat (find_audio_stream i ss - i)) ss)).
Proof.
  induction ss as [| s ss IH]; intros i Hi; cbn [find_audio_stream].
  - left. now split.
  - destruct (is_audio (codec_type s)) eqn:Es.
    + right. rewrite Z.sub_diag. cbn [Z.to_nat nth firstn List.length].
      repeat split; [lia | lia | exact Es | constructor].
    + destruct (IH (i + 1)) as [[Hr Hall] | (Hr & Ha & Hall)]; [lia | |].
      * left. split; [exact Hr | now constructor].
      * right.
        replace (Z.to_nat (find_audio_stream (i + 1) ss - i))
          with (S (Z.to_nat (find_audio_stream (i + 1) ss - (i + 1)))) by lia.
        cbn [nth firstn List.length]. repeat split; try lia; try assumption.
        now constructor.
Qed.

Lemma main_usage (w : World) :
  (argc w <? 3) = true ->
  main w = (-1, mkProcess []
                  ["Usage: " ++ arg w 0 ++ " <input file> <output file>" ++ nl]%string
                  []).
Proof.
  intros H. unfold main, main_body, opening.
  cbv [bind call std_cerr return_ ret start]. now rewrite H.
Qed.

Lemma main_no_audio (w : World) :
  (argc w <? 3) = false ->
  (avformat_open_input_ret w =? 0) = true ->
  (avformat_find_stream_info_ret w <? 0) = false ->
  (find_audio_stream 0 (streams w) =? -1) = true ->
  main w
  = (-1, mkProcess
           [Call_avformat_open_input (arg w 1) (avformat_open_input_ret w);
            Call_avformat_find_stream_info (avformat_find_stream_info_ret w)]
           ["Could not find audio stream" ++ nl]%string []).
Proof.
  intros H1 H2 H3 H4. unfold main, main_body, opening.
  cbv [bind call std_cerr return_ ret start].
  rewrite H1. simpl. rewrite H2. simpl. rewrite H3. simpl. now rewrite H4.
Qed.

(** What is printed, by outcome of the set-up. *)
Lemma main_messages (w : World) :
  if opening_succeeds w
  then stdout w = ["Processing completed." ++ nl]%string /\ stderr w = []
  else stdout w = [] /\ exists msg, stderr w = [msg].
Proof.
  pose proof (main_cout w) as Hc. pose proof (main_outcome w) as Hm.
  pose proof (opening_outcome w) as (_ & Ho).
  destruct (opening_readings w) as (Hco & _).
  unfold main_body in Hc.
  rewrite cout_of_bind, Hco in Hc by (intros; apply appends_rest).
  destruct (opening_succeeds w).
  - destruct Ho as (_ & st & Hst & _). destruct Hm as (_ & He & _).
    rewrite Hst in Hc.
    pose proof (steady_streaming (host_byte_order w) (input_packets w) st)
      as (_ & (st' & Hst') & _ & Hso & _).
    rewrite cout_of_bind, Hso, Hst' in Hc by (intros; apply appends_closing).
    split; [now rewrite <- Hc | exact He].
  - destruct Ho as (Hf & _ & _ & msg & Hmsg). destruct Hm as (_ & _ & He).
    rewrite Hf in Hc. split; [now rewrite <- Hc |].
    exists msg. congruence.
Qed.

(** With [AVFMT_NOFILE] set, the answer [avio_open] would give plays no
    part. *)
Lemma main_nofile (w : World) (r : Z) :
  (Z.land (oformat_flags w) AVFMT_NOFILE =? 0) = false ->
  main (set_avio_open_ret w r) = main w.
Proof.
  intros H.
  assert (E : opening (set_avio_open_ret w r) = opening w).
  { unfold opening. cbn [argc arg argv avformat_open_input_ret
      avformat_find_stream_info_ret streams decoder_found decoder_open_ret
      decoder_opened output_context_allocated encoder_found encoder_sample_fmts
      stream_created encoder_open_ret encoder_opened encoder_frame_size
      oformat_flags avio_open_ret avformat_write_header_ret set_avio_open_ret].
    unfold argc, arg. cbn [argv set_avio_open_ret]. now rewrite H. }
  unfold main, main_body. now rewrite E.
Qed.

Lemma find_audio_stream_none (ss : list AVCodecParameters) :
  Forall (fun s => is_audio (codec_type s) = false) ss ->
  forall i, find_audio_stream i ss = -1.
Proof.
  induction 1 as [| s ss Hs _ IH]; intros i; cbn [find_audio_stream];
    [reflexivity |].
  rewrite Hs. apply IH.
Qed.

Lemma closing_further :
  frames_received closing_calls = [] /\ encoder_chunks closing_calls = []
  /\ written_packets closing_calls = []
  /\ filter is_unref closing_calls = []
  /\ filter is_output closing_calls = [Call_av_write_trailer]
  /\ filter is_release closing_calls = tl closing_calls.
Proof. now repeat split. Qed.

(** The readings of a run that gets past the set-up, from those of its
    loop. *)
Lemma run_readings (w : World) :
  opening_succeeds w = true ->
  exists st',
    flow_of (streaming (host_byte_order w) (input_packets w) (initial_pipeline w))
    = Continue st'
    /\ loop_effect (host_byte_order w) (initial_pipeline w) st'
         (calls_of (streaming (host_byte_order w) (input_packets w)
                              (initial_pipeline w)))
    /\ frames_received (trace w)
       = frames_received (calls_of (streaming (host_byte_order w)
                                      (input_packets w) (initial_pipeline w)))
    /\ encoder_chunks (trace w)
       = encoder_chunks (calls_of (streaming (host_byte_order w)
                                     (input_packets w) (initial_pipeline w)))
    /\ written_packets (trace w)
       = written_packets (calls_of (streaming (host_byte_order w)
                                      (input_packets w) (initial_pipeline w)))
    /\ List.length (filter is_unref (trace w))
       = (List.length (input_packets w)
          + List.length (written_packets (trace w)))%nat
    /\ filter is_output (trace w)
       = Call_avformat_write_header (avformat_write_header_ret w)
         :: map Call_av_interleaved_write_frame (written_packets (trace w))
         ++ [Call_av_write_trailer]
    /\ filter is_release (trace w) = tl closing_calls.
Proof.
  intros Hok. rewrite (run_shape w Hok).
  destruct (opening_outcome w) as (Hs & _).
  destruct (setup_calls_readings _ Hs) as (H1 & _ & H3 & H4 & _).
  destruct (setup_calls_further _ Hs) as (_ & _ & H5 & H6).
  destruct (opening_readings w) as (_ & _ & _ & Hout). rewrite Hok in Hout.
  destruct (streaming_effect (host_byte_order w) (input_packets w)
                             (initial_pipeline w))
    as (st' & Hf & He & _ & _ & _ & Hu).
  pose proof (steady_streaming (host_byte_order w) (input_packets w)
                (initial_pipeline w)) as (_ & _ & _ & _ & Hl).
  destruct (loop_calls_further _ Hl) as (_ & _ & Hrel & Hlo).
  exists st'. split; [exact Hf |]. split; [exact He |].
  unfold frames_received, encoder_chunks, written_packets in *.
  rewrite !flat_map_app, !filter_app, H1, H3, H4, H5, H6, Hout, Hrel, Hlo.
  simpl. rewrite !app_nil_r, Hu. now repeat split.
Qed.

Lemma failed_run_readings (w : World) :
  opening_succeeds w = false ->
  filter is_output (trace w) = [] /\ filter is_release (trace w) = [].
Proof.
  intros Hok. pose proof (main_outcome w) as H. rewrite Hok in H.
  destruct H as (_ & -> & _).
  destruct (opening_outcome w) as (Hs & _).
  destruct (setup_calls_further _ Hs) as (_ & _ & _ & H6).
  destruct (opening_readings w) as (_ & _ & _ & Hout). rewrite Hok in Hout.
  now split.
Qed.

Lemma load_store_int16s bo (vs : list Z) :
  Forall is_int16 vs ->
  forall plane,
    load_int16s bo (store_int16s bo vs plane)
    = firstn (List.length (load_int16s bo plane)) vs
      ++ skipn (List.length vs) (load_int16s bo plane).
Proof.
  induction 1 as [| v vs Hv _ IH]; intros plane.
  - cbn [store_int16s List.length skipn]. now rewrite firstn_nil.
  - destruct plane as [| b0 [| b1 rest]]; try reflexivity.
    cbn [store_int16s].
    pose proof (int16_of_bytes_of_int16 bo v Hv) as E.
    destruct (bytes_of_int16 bo v) as [c0 c1]. cbn [fst snd] in E.
    cbn [load_int16s List.length firstn skipn app]. now rewrite E, IH.
Qed.

Lemma store_int16s_tail bo (vs : list Z) :
  forall plane,
    skipn (2 * List.length vs) (store_int16s bo vs plane)
    = skipn (2 * List.length vs) plane.
Proof.
  induction vs as [| v vs IH]; intros plane; [reflexivity |].
  destruct plane as [| b0 [| b1 rest]]; try reflexivity.
  cbn [store_int16s]. destruct (bytes_of_int16 bo v) as [c0 c1].
  replace (2 * List.length (v :: vs))%nat with (S (S (2 * List.length vs)))
    by (cbn [List.length]; lia).
  cbn [skipn]. apply IH.
Qed.

Lemma denoise_frame_data0 bo (sp : SpeexPreprocessState) (f : AVFrame) :
  data0 (snd (denoise_frame bo sp f))
  = store_int16s bo (snd (speex_preprocess_run sp (denoiser_input bo f)))
                 (data0 f).
Proof.
  unfold denoise_frame.
  destruct (speex_preprocess_run sp (denoiser_input bo f)) as [sp' vs].
  unfold with_data0, data0. simpl.
  destruct (data f) as [| plane others]; [now destruct vs | reflexivity].
Qed.

End Coverage.

(** X1.  The stream [main] selects (lines 43-49) is the first audio stream of
    the input: either no stream is audio and the index is -1, or the index
    lies within the streams, the stream at it is audio and no stream before
    it is. *)
Theorem first_audio_stream_is_selected (ss : list AVCodecParameters) :
  (find_audio_stream 0 ss = -1
   /\ Forall (fun s => is_audio (codec_type s) = false) ss)
  \/ (0 <= find_audio_stream 0 ss < Z.of_nat (List.length ss)
      /\ is_audio (codec_type (nth (Z.to_nat (find_audio_stream 0 ss)) ss
                                   default_parameters)) = true
      /\ Forall (fun s => is_audio (codec_type s) = false)
                (firstn (Z.to_nat (find_audio_stream 0 ss)) ss)).
Proof.
  destruct (find_audio_stream_from ss 0) as [H | H]; [lia | now left | right].
  now rewrite Z.sub_0_r, Z.add_0_l in H.
Qed.

(** X2.  Called with its name and fewer than two file names on the command
    line, the program calls no library function at all: it prints the usage
    line, naming itself by [argv[0]], and returns -1.  ([argv[0]] has to be
    there: with an empty argument vector it is a null pointer.) *)
Theorem usage_without_file_names {lib : MediaLibrary} (w : World) :
  1 <= argc w < 3 ->
  exit_code w = -1
  /\ trace w = []
  /\ stderr w = ["Usage: " ++ arg w 0
                 ++ " <input file> <output file>" ++ nl]%string
  /\ stdout w = []
  /\ In (arg w 0) (argv w).
Proof.
  intros [H0 H]. apply Z.ltb_lt in H.
  unfold exit_code, trace, stderr, stdout. rewrite (main_usage w H).
  repeat split. unfold arg. apply nth_In. unfold argc in H0. lia.
Qed.

Lemma usage_without_file_names_example :
  exit_code one_argument_world = -1
  /\ trace one_argument_world = []
  /\ stderr one_argument_world
     = ["Usage: " ++ arg one_argument_world 0
        ++ " <input file> <output file>" ++ nl]%string
  /\ stdout one_argument_world = []
  /\ In (arg one_argument_world 0) (argv one_argument_world).
Proof.
  apply (usage_without_file_names one_argument_world).
  change (1 <= 2 < 3). lia.
Defined.

(** X3.  The program prints "Processing completed." on standard output
    exactly when the set-up succeeds, and then prints nothing on standard
    error; when the set-up fails it prints one message on standard error
    and nothing on standard output. *)
Theorem completion_message_iff_setup {lib : MediaLibrary} (w : World) :
  if opening_succeeds w
  then stdout w = ["Processing completed." ++ nl]%string /\ stderr w = []
  else stdout w = [] /\ exists msg, stderr w = [msg].
Proof. apply main_messages. Qed.

(** X4.  When the input opens and can be probed but none of its streams is
    audio (an input without streams included), the program prints "Could not
    find audio stream" and returns -1, having made two calls only: it looks
    up no decoder and creates no output. *)
Theorem input_without_audio_stream {lib : MediaLibrary} (w : World) :
  3 <= argc w ->
  avformat_open_input_ret w = 0 ->
  0 <= avformat_find_stream_info_ret w ->
  Forall (fun s => is_audio (codec_type s) = false) (streams w) ->
  exit_code w = -1
  /\ stderr w = ["Could not find audio stream" ++ nl]%string
  /\ stdout w = []
  /\ trace w
     = [Call_avformat_open_input (arg w 1) 0;
        Call_avformat_find_stream_info (avformat_find_stream_info_ret w)].
Proof.
  intros H1 H2 H3 H4.
  assert (Hidx : find_audio_stream 0 (streams w) = -1)
    by now apply find_audio_stream_none.
  unfold exit_code, stderr, stdout, trace.
  rewrite (main_no_audio w); rewrite ?H2, ?Hidx; try reflexivity.
  - now repeat split.
  - now apply Z.ltb_ge.
  - now apply Z.ltb_ge.
Qed.

Lemma input_without_audio_stream_example :
  exit_code silent_world = -1
  /\ stderr silent_world = ["Could not find audio stream" ++ nl]%string
  /\ stdout silent_world = []
  /\ trace silent_world
     = [Call_avformat_open_input (arg silent_world 1) 0;
        Call_avformat_find_stream_info
          (avformat_find_stream_info_ret silent_world)].
Proof.
  apply (input_without_audio_stream silent_world).
  - vm_compute. discriminate.
  - reflexivity.
  - vm_compute. discriminate.
  - repeat constructor.
Defined.

(** X5.  The Speex preprocessor is set up once, after the decoder has been
    opened: created with the frame size and the sample rate of the selected
    stream, then noise suppression switched on, then the suppression level
    set to -10.  It is never created or configured again, in particular not
    while frames are processed; a run that stops before the decoder is open
    creates no preprocessor. *)
Theorem speex_is_configured_once {lib : MediaLibrary} (w : World) :
  filter is_speex_setup (trace w)
  = if reaches_speex_init w
    then [Call_speex_preprocess_state_init
            (par_frame_size (audio_parameters w))
            (par_sample_rate (audio_parameters w));
          Call_speex_preprocess_ctl SPEEX_PREPROCESS_SET_DENOISE 1;
          Call_speex_preprocess_ctl SPEEX_PREPROCESS_SET_NOISE_SUPPRESS (-10)]
    else [].
Proof.
  destruct (opening_readings w) as (_ & Hs & _). rewrite <- Hs.
  pose proof (main_outcome w) as H.
  destruct (opening_succeeds w) eqn:Hok.
  - rewrite (run_shape w Hok).
    pose proof (steady_streaming (host_byte_order w) (input_packets w)
                  (initial_pipeline w)) as (_ & _ & _ & _ & Hl).
    destruct (loop_calls_further _ Hl) as (Hl' & _).
    rewrite !filter_app, Hl'. simpl. now rewrite app_nil_r.
  - now destruct H as (_ & -> & _).
Qed.

(** X6.  The output file is opened only for a format that needs one: when
    the output format has [AVFMT_NOFILE] set, [avio_open] is never called and
    the answer it would have given changes nothing in the run. *)
Theorem no_file_for_nofile_formats {lib : MediaLibrary} (w : World) (r : Z) :
  Z.land (oformat_flags w) AVFMT_NOFILE <> 0 ->
  filter is_avio_open (trace w) = []
  /\ main (set_avio_open_ret w r) = main w.
Proof.
  intros H. apply Z.eqb_neq in H. split; [| now apply main_nofile].
  destruct (opening_readings w) as (_ & _ & Ha & _).
  rewrite H, andb_false_r in Ha.
  pose proof (main_outcome w) as Hm.
  destruct (opening_succeeds w) eqn:Hok.
  - rewrite (run_shape w Hok).
    pose proof (steady_streaming (host_byte_order w) (input_packets w)
                  (initial_pipeline w)) as (_ & _ & _ & _ & Hl).
    destruct (loop_calls_further _ Hl) as (_ & Hl' & _).
    now rewrite !filter_app, Ha, Hl'.
  - destruct Hm as (_ & -> & _). exact Ha.
Qed.

Lemma no_file_for_nofile_formats_example :
  filter is_avio_open (trace nofile_world) = []
  /\ main (set_avio_open_ret nofile_world 0) = main nofile_world.
Proof.
  apply (no_file_for_nofile_formats nofile_world 0). vm_compute. discriminate.
Defined.

(** X7.  The loop keeps what the set-up established.  From a pipeline in
    which no decoded frame and no encoded packet is waiting, processing any
    sequence of packets ends in a pipeline with the same audio stream index
    and the same configuration of the decoder and of the encoder context, in
    which again nothing is waiting: every frame the decoder made available
    has been taken, and every packet the encoder made available has been
    written. *)
Theorem loop_keeps_the_setup {lib : MediaLibrary} (bo : ByteOrder)
    (input : list AVPacket) (st : Pipeline) :
  ready (codec_context st) = [] ->
  ready (out_codec_context st) = [] ->
  exists st',
    flow_of (streaming bo input st) = Continue st'
    /\ audio_stream_index st' = audio_stream_index st
    /\ configuration (codec_context st') = configuration (codec_context st)
    /\ configuration (out_codec_context st')
       = configuration (out_codec_context st)
    /\ ready (codec_context st') = []
    /\ ready (out_codec_context st') = [].
Proof.
  intros Hd He.
  destruct (streaming_effect bo input st)
    as (st' & Hf & (Hi & Hc & Ho & _ & _ & Hw) & Hr & _).
  exists st'. repeat split; auto. now apply Hw.
Qed.

Lemma loop_keeps_the_setup_example :
  exists st',
    flow_of (streaming LittleEndian (input_packets refused_world) pcm_pipeline)
    = Continue st'
    /\ audio_stream_index st' = audio_stream_index pcm_pipeline
    /\ configuration (codec_context st')
       = configuration (codec_context pcm_pipeline)
    /\ configuration (out_codec_context st')
       = configuration (out_codec_context pcm_pipeline)
    /\ ready (codec_context st') = []
    /\ ready (out_codec_context st') = [].
Proof.
  apply (loop_keeps_the_setup LittleEndian (input_packets refused_world)
                              pcm_pipeline); reflexivity.
Defined.

(** X8.  In a run that gets past the set-up every packet of the input is
    read, in order, and exactly the packets of the selected audio stream are
    given to the decoder, each once and in order: a packet the decoder
    refuses, or a frame the encoder refuses, does not stop the packets after
    it from being read and sent. *)
Theorem every_packet_is_read {lib : MediaLibrary} (w : World) :
  opening_succeeds w = true ->
  packets_read (trace w) = input_packets w
  /\ packets_sent (trace w)
     = filter (fun p => stream_index p =? find_audio_stream 0 (streams w))
              (input_packets w).
Proof.
  intros Hok. rewrite (run_shape w Hok).
  destruct (opening_outcome w) as (Hs & _).
  destruct (setup_calls_further _ Hs) as (H1 & H2 & _).
  destruct (streaming_effect (host_byte_order w) (input_packets w)
                             (initial_pipeline w))
    as (st' & _ & _ & _ & Hr & Hp & _).
  unfold packets_read, packets_sent in *.
  rewrite !flat_map_app, H1, H2, Hr, Hp. simpl. now rewrite !app_nil_r.
Qed.

Lemma every_packet_is_read_example :
  packets_read (trace refused_world) = input_packets refused_world
  /\ packets_sent (trace refused_world)
     = filter (fun p => stream_index p
                        =? find_audio_stream 0 (streams refused_world))
              (input_packets refused_world).
Proof. apply (every_packet_is_read refused_world). reflexivity. Defined.

(** X9.  The state of the preprocessor lives across the whole stream: in a
    run that gets past the set-up, the frames given to the encoder are the
    frames the decoder returned, denoised one after the other in the order
    received, the first with the preprocessor as the set-up configured it and
    each next one with the state the previous call left, whether or not the
    encoder took the previous frame. *)
Theorem encoder_gets_frames_denoised_in_order {lib : MediaLibrary} (w : World) :
  opening_succeeds w = true ->
  encoder_chunks (trace w)
  = denoise_all (host_byte_order w) (preprocess_state (initial_pipeline w))
                (frames_received (trace w)).
Proof.
  intros Hok.
  destruct (run_readings w Hok) as (st' & _ & He & -> & -> & _).
  apply He.
Qed.

Lemma encoder_gets_frames_denoised_in_order_example :
  encoder_chunks (trace refused_world)
  = denoise_all (host_byte_order refused_world)
                (preprocess_state (initial_pipeline refused_world))
                (frames_received (trace refused_world)).
Proof.
  apply (encoder_gets_frames_denoised_in_order refused_world). reflexivity.
Defined.

(** X10.  What is written to the output is what the encoder produced: in a
    run that gets past the set-up, the packets passed to
    [av_interleaved_write_frame] are the packets the encoder released for
    the frames it accepted, each once, in the order of release; for a frame
    the encoder refuses nothing is written, and nothing else is ever
    written. *)
Theorem written_packets_are_the_encoder_output {lib : MediaLibrary} (w : World) :
  opening_succeeds w = true ->
  written_packets (trace w)
  = encoder_output (encoder_opened w) (encoder_chunks (trace w)).
Proof.
  intros Hok.
  destruct (run_readings w Hok) as (st' & _ & He & _ & -> & -> & _).
  destruct He as (_ & _ & _ & _ & _ & Hw).
  now destruct (Hw eq_refl) as (_ & -> & _).
Qed.

Lemma written_packets_are_the_encoder_output_example :
  written_packets (trace refused_world)
  = encoder_output (encoder_opened refused_world)
                   (encoder_chunks (trace refused_world)).
Proof.
  apply (written_packets_are_the_encoder_output refused_world). reflexivity.
Defined.

(** X11.  The calls that put bytes into the output file always come in the
    container's order: the header once, then the packets, then the trailer
    once, and a run whose set-up fails makes none of them. *)
Theorem output_is_header_packets_trailer {lib : MediaLibrary} (w : World) :
  filter is_output (trace w)
  = if opening_succeeds w
    then Call_avformat_write_header (avformat_write_header_ret w)
         :: map Call_av_interleaved_write_frame (written_packets (trace w))
         ++ [Call_av_write_trailer]
    else [].
Proof.
  destruct (opening_succeeds w) eqn:Hok.
  - now destruct (run_readings w Hok) as (st' & _ & _ & _ & _ & _ & _ & -> & _).
  - now destruct (failed_run_readings w Hok) as (-> & _).
Qed.



(** X13.  Resources are released only at the end of a completed run: then
    each release call of lines 172-178 is made once, in that order, after
    the trailer.  A run whose set-up fails returns without a single release
    call, whatever it had opened by then. *)
Theorem releases_only_after_completion {lib : MediaLibrary} (w : World) :
  filter is_release (trace w)
  = if opening_succeeds w
    then [Call_av_frame_free; Call_av_packet_free; Call_avcodec_free_context;
          Call_avformat_close_input; Call_speex_preprocess_state_destroy;
          Call_avcodec_close; Call_avformat_free_context]
    else [].
Proof.
  destruct (opening_succeeds w) eqn:Hok.
  - now destruct (run_readings w Hok) as (st' & _ & _ & _ & _ & _ & _ & _ & ->).
  - now destruct (failed_run_readings w Hok) as (_ & ->).
Qed.

(** X14.  Writing Speex's output back through the 16-bit pointer changes
    what it should and nothing more.  When the denoise call stays within the
    first plane and the values Speex returns are 16-bit values, the first
    plane of the frame sent on, read again as 16-bit values, holds exactly
    those values followed by the values the decoder had left behind them; and
    the bytes of the plane beyond the values written are the decoder's
    bytes. *)
Theorem denoised_plane_reads_back {lib : MediaLibrary} (bo : ByteOrder)
    (sp : SpeexPreprocessState) (f : AVFrame) :
  denoise_in_bounds bo sp f ->
  Forall is_int16 (snd (speex_preprocess_run sp (denoiser_input bo f))) ->
  denoiser_input bo (snd (denoise_frame bo sp f))
  = snd (speex_preprocess_run sp (denoiser_input bo f))
    ++ skipn (List.length (snd (speex_preprocess_run sp (denoiser_input bo f))))
             (denoiser_input bo f)
  /\ skipn (2 * List.length (snd (speex_preprocess_run sp (denoiser_input bo f))))
           (data0 (snd (denoise_frame bo sp f)))
     = skipn (2 * List.length (snd (speex_preprocess_run sp (denoiser_input bo f))))
             (data0 f).
Proof.
  intros Hin Hout. unfold denoiser_input at 1. rewrite denoise_frame_data0.
  split; [| apply store_int16s_tail].
  rewrite load_store_int16s by assumption.
  fold (denoiser_input bo f). now rewrite firstn_all2 by exact Hin.
Qed.

Lemma denoised_plane_reads_back_example :
  denoiser_input LittleEndian
    (snd (denoise_frame (lib := pcm_library) LittleEndian 1 planar_frame))
  = [1; 4].
Proof.
  refine (proj1 (denoised_plane_reads_back (lib := pcm_library) LittleEndian 1
                   planar_frame _ _)).
  - vm_compute. repeat constructor.
  - change (Forall is_int16 [1]).
    repeat constructor; unfold is_int16, INT16_MIN, INT16_MAX; lia.
Defined.
